(** * logf: a logfmt line encoder with level filtering

    Shallow embedding of [log.go] (package [logf]) and proofs about its
    escaping engine, line assembler, level filter and fatal path.

    Go strings are byte sequences: they are modelled as [list byte].
    Runes are [Z].  Loops that advance an index by a decoded width are
    defined by well-founded recursion on the number of bytes left. *)

From Equations Require Import Equations.
From Stdlib Require Import Strings.String Strings.Byte.
From Stdlib Require DecimalString.
From Stdlib Require Import List ZArith Lia Bool Arith Permutation.
Import ListNotations.

Local Open Scope Z_scope.

(** ** Bytes and string literals *)

Definition gostring := list byte.

Definition b2z (b : byte) : Z := Z.of_N (Byte.to_N b).

(** A string literal of the source as bytes. *)
Definition str (s : string) : gostring := list_byte_of_string s.

(** The byte with a given code (codes above 255 do not occur). *)
Definition z2b (z : Z) : byte :=
  match Byte.of_N (Z.to_N z) with
  | Some b => b
  | None => x00
  end.

Definition dquote : byte := x22.
Definition backslash : byte := x5c.
Definition space : byte := x20.
Definition equals : byte := x3d.
Definition newline : byte := x0a.
Definition escbyte : byte := x1b.

(** ** Package [unicode/utf8] of the Go standard library

    [DecodeRuneInString] is transcribed from the library: the table
    [first] is given by its rows, [acceptRanges] by its five entries.  For
    a first byte whose entry is [as] or [xx] the library selects the result
    with a mask: the byte itself for [as], [RuneError] for [xx]. *)
Module utf8.

Definition RuneError : Z := 0xFFFD.
Definition RuneSelf : Z := 0x80.

Definition maskx : Z := 0x3F.
Definition mask2 : Z := 0x1F.
Definition mask3 : Z := 0x0F.
Definition mask4 : Z := 0x07.

Definition locb : Z := 0x80.
Definition hicb : Z := 0xBF.

Definition xx : Z := 0xF1.
Definition as_ : Z := 0xF0.
Definition s1 : Z := 0x02.
Definition s2 : Z := 0x13.
Definition s3 : Z := 0x03.
Definition s4 : Z := 0x23.
Definition s5 : Z := 0x34.
Definition s6 : Z := 0x04.
Definition s7 : Z := 0x44.

(** [first[b]]: information about the first byte of an encoding. *)
Definition first (b : Z) : Z :=
  if b <? 0x80 then as_
  else if b <? 0xC2 then xx
  else if b <? 0xE0 then s1
  else if b =? 0xE0 then s2
  else if b <? 0xED then s3
  else if b =? 0xED then s4
  else if b <? 0xF0 then s3
  else if b =? 0xF0 then s5
  else if b <? 0xF4 then s6
  else if b =? 0xF4 then s7
  else xx.

(** [acceptRanges[k]] as a pair [(lo, hi)]. *)
Definition acceptRanges (k : Z) : Z * Z :=
  if k =? 0 then (locb, hicb)
  else if k =? 1 then (0xA0, hicb)
  else if k =? 2 then (locb, 0x9F)
  else if k =? 3 then (0x90, hicb)
  else if k =? 4 then (locb, 0x8F)
  else (0, 0).

(** [s[k]] for an index the source has already checked to be in range. *)
Definition at_ (s : gostring) (k : nat) : Z := b2z (nth k s x00).

Definition DecodeRuneInString (s : gostring) : Z * nat :=
  let n := length s in
  if (n <? 1)%nat then (RuneError, 0%nat)
  else
    let s0 := at_ s 0 in
    let x := first s0 in
    if as_ <=? x then
      ((if x =? xx then RuneError else s0), 1%nat)
    else
      let sz := Z.to_nat (Z.land x 7) in
      let accept := acceptRanges (Z.shiftr x 4) in
      if (n <? sz)%nat then (RuneError, 1%nat)
      else
        let s1 := at_ s 1 in
        if (s1 <? fst accept) || (snd accept <? s1) then (RuneError, 1%nat)
        else if (sz <=? 2)%nat then
          (Z.lor (Z.shiftl (Z.land s0 mask2) 6) (Z.land s1 maskx), 2%nat)
        else
          let s2 := at_ s 2 in
          if (s2 <? locb) || (hicb <? s2) then (RuneError, 1%nat)
          else if (sz <=? 3)%nat then
            (Z.lor (Z.lor (Z.shiftl (Z.land s0 mask3) 12)
                          (Z.shiftl (Z.land s1 maskx) 6))
                   (Z.land s2 maskx), 3%nat)
          else
            let s3 := at_ s 3 in
            if (s3 <? locb) || (hicb <? s3) then (RuneError, 1%nat)
            else
              (Z.lor (Z.lor (Z.lor (Z.shiftl (Z.land s0 mask4) 18)
                                   (Z.shiftl (Z.land s1 maskx) 12))
                            (Z.shiftl (Z.land s2 maskx) 6))
                     (Z.land s3 maskx), 4%nat).

End utf8.

(** The decoder consumes at least one byte of a non-empty string and never
    more than the string has. *)
Lemma DecodeRuneInString_size (s : gostring) :
  s <> [] ->
  (1 <= snd (utf8.DecodeRuneInString s) <= length s)%nat.
Proof.
  intros Hs. unfold utf8.DecodeRuneInString.
  destruct s as [|b t]; [congruence|].
  cbn [length]. change (S (length t) <? 1)%nat with false. cbv iota.
  set (x := utf8.first _).
  destruct (utf8.as_ <=? x) eqn:Hx; [cbn; lia|].
  set (sz := Z.to_nat (Z.land x 7)).
  destruct (S (length t) <? sz)%nat eqn:Hn; [cbn; lia|].
  apply Nat.ltb_ge in Hn.
  destruct (_ || _); [cbn; lia|].
  destruct (sz <=? 2)%nat eqn:H2.
  { apply Nat.leb_le in H2. cbn [snd].
    assert (2 <= sz)%nat; [|lia].
    subst sz x. revert Hx. unfold utf8.first.
    repeat match goal with |- context [if ?c then _ else _] => destruct c end;
      vm_compute; intros; try discriminate; lia. }
  apply Nat.leb_gt in H2.
  destruct (_ || _); [cbn; lia|].
  destruct (sz <=? 3)%nat eqn:H3.
  { apply Nat.leb_le in H3. cbn [snd]. lia. }
  apply Nat.leb_gt in H3.
  destruct (_ || _); [cbn; lia|].
  cbn [snd]. split; [lia|].
  assert (sz <= 4)%nat; [|lia].
  subst sz x. unfold utf8.first.
  repeat match goal with |- context [if ?c then _ else _] => destruct c end;
    vm_compute; intros; try discriminate; lia.
Qed.

(** ** Package [strings]: [IndexFunc]

    [for i, r := range s] decodes one rune at byte offset [i]; an
    undecodable byte yields [RuneError] and advances by one, which is what
    [DecodeRuneInString] returns there.  The result is the byte index of the
    first rune satisfying [f], or [-1]. *)
Module strings.

Equations? indexFunc (f : Z -> bool) (s : gostring) (i : nat) : Z
  by wf (length s - i)%nat lt :=
  indexFunc f s i with lt_dec i (length s) => {
    | right _ := -1;
    | left Hlt :=
        if f (fst (utf8.DecodeRuneInString (skipn i s))) then Z.of_nat i
        else indexFunc f s (i + snd (utf8.DecodeRuneInString (skipn i s)))
  }.
Proof.
  assert (Hne : skipn i s <> []).
  { intro E. apply (f_equal (@length byte)) in E.
    rewrite length_skipn in E. cbn in E. lia. }
  pose proof (DecodeRuneInString_size _ Hne) as Hsz.
  rewrite length_skipn in Hsz. lia.
Qed.

Definition IndexFunc (s : gostring) (f : Z -> bool) : Z := indexFunc f s 0.

End strings.

(** ** The byte buffer *)

(** Modelled from the spec: the byte buffer type ([byteBuffer], with its
    pool) is declared outside [log.go].  Section 3 of the specification
    describes it as a growable byte sequence mutated append-only, so a
    buffer is the list of bytes appended so far. *)
Definition byteBuffer := list byte.

Definition AppendString (buf : byteBuffer) (s : gostring) : byteBuffer := buf ++ s.
Definition AppendByte (buf : byteBuffer) (b : byte) : byteBuffer := buf ++ [b].

(** ** Escaping *)

Definition hex : gostring := str "0123456789abcdef".

(** [s[lo:hi]] *)
Definition slice (s : gostring) (lo hi : nat) : gostring :=
  firstn (hi - lo) (skipn lo s).

(** [checkEscapingRune] returns true if the rune is to be escaped. *)
Definition checkEscapingRune (r : Z) : bool :=
  (r =? b2z equals) || (r =? b2z space) || (r =? b2z dquote) || (r =? utf8.RuneError).

(** The [switch b] of [writeQuotedString]. *)
Definition writeEscapedByte (buf : byteBuffer) (b : byte) : byteBuffer :=
  if (b2z b =? b2z backslash) || (b2z b =? b2z dquote) then
    AppendByte (AppendByte buf backslash) b
  else if b2z b =? 0x0a then AppendByte (AppendByte buf backslash) x6e
  else if b2z b =? 0x0d then AppendByte (AppendByte buf backslash) x72
  else if b2z b =? 0x09 then AppendByte (AppendByte buf backslash) x74
  else
    AppendByte
      (AppendByte (AppendString buf (backslash :: str "u00"))
                  (nth (Z.to_nat (Z.shiftr (b2z b) 4)) hex x00))
      (nth (Z.to_nat (Z.land (b2z b) 0xF)) hex x00).

(** [if start < i { buf.AppendString(s[start:i]) }] *)
Definition flushRun (buf : byteBuffer) (s : gostring) (start i : nat) : byteBuffer :=
  if (start <? i)%nat then AppendString buf (slice s start i) else buf.

(** The loop of [writeQuotedString] with its variables [i], [start] and the
    buffer, followed by the statements after the loop. *)
Equations? writeQuotedLoop (s : gostring) (i start : nat) (buf : byteBuffer) : byteBuffer
  by wf (length s - i)%nat lt :=
  writeQuotedLoop s i start buf with lt_dec i (length s) => {
    | right _ := AppendByte (flushRun buf s start (length s)) dquote;
    | left Hlt :=
        let b := nth i s x00 in
        if b2z b <? utf8.RuneSelf then
          if (0x20 <=? b2z b) && negb (b2z b =? b2z backslash) && negb (b2z b =? b2z dquote)
          then writeQuotedLoop s (i + 1) start buf
          else writeQuotedLoop s (i + 1) (i + 1)
                 (writeEscapedByte (flushRun buf s start i) b)
        else
          if fst (utf8.DecodeRuneInString (skipn i s)) =? utf8.RuneError then
            writeQuotedLoop s
              (i + snd (utf8.DecodeRuneInString (skipn i s)))
              (i + snd (utf8.DecodeRuneInString (skipn i s)))
              (AppendString (flushRun buf s start i) (backslash :: str "ufffd"))
          else
            writeQuotedLoop s (i + snd (utf8.DecodeRuneInString (skipn i s))) start buf
  }.
Proof.
  1,2: lia.
  all: assert (Hne : skipn i s <> [])
    by (intro E; apply (f_equal (@length byte)) in E;
        rewrite length_skipn in E; cbn in E; lia);
    pose proof (DecodeRuneInString_size _ Hne) as Hsz;
    rewrite length_skipn in Hsz; lia.
Qed.

(** [writeQuotedString] quotes a string before writing to the buffer. *)
Definition writeQuotedString (buf : byteBuffer) (s : gostring) : byteBuffer :=
  writeQuotedLoop s 0 0 (AppendByte buf dquote).

(** [escapeAndWriteString] escapes the string if any unwanted chars are there. *)
Definition escapeAndWriteString (buf : byteBuffer) (s : gostring) : byteBuffer :=
  let idx := strings.IndexFunc s checkEscapingRune in
  if negb (idx =? -1) then writeQuotedString buf s
  else AppendString buf s.

(** ** Severity levels and colours *)

(** [type Level int] *)
Definition Level := Z.

Definition DebugLevel : Level := 0.
Definition InfoLevel : Level := 1.
Definition WarnLevel : Level := 2.
Definition ErrorLevel : Level := 3.
Definition FatalLevel : Level := 4.

Definition tsKey : gostring := str "timestamp=".
Definition scopeKey : gostring := str "sc".
Definition defaultTSFormat : gostring := str "2006-01-02T15:04:05.999Z07:00".

(** ANSI escape codes: ESC followed by the colour selector. *)
Definition reset : gostring := escbyte :: str "[0m".
Definition purple : gostring := escbyte :: str "[35m".
Definition red : gostring := escbyte :: str "[31m".
Definition yellow : gostring := escbyte :: str "[33m".
Definition cyan : gostring := escbyte :: str "[36m".

(** [colorLvlMap], an array of five strings indexed by level. *)
Definition colorLvlMap : list gostring := [purple; cyan; yellow; red; red].

(** [Level.String] *)
Definition Level_String (l : Level) : gostring :=
  if l =? DebugLevel then str "debug"
  else if l =? InfoLevel then str "info"
  else if l =? WarnLevel then str "warn"
  else if l =? ErrorLevel then str "error"
  else if l =? FatalLevel then str "fatal"
  else str "invalid lvl".

(** [getColoredKey]: indexing the array outside [0..4] is a run-time
    panic, modelled by [None]. *)
Definition getColoredKey (k : gostring) (lvl : Level) : option gostring :=
  if lvl <? 0 then None
  else match nth_error colorLvlMap (Z.to_nat lvl) with
       | Some c => Some (c ++ k ++ reset)
       | None => None
       end.

(** ** Field values *)

(** The dynamic types [writeToBuf] distinguishes.  A float is carried as
    its bit pattern, a [fmt.Stringer] by the text its [String] method
    returns and any other value by the text [fmt.Sprintf("%v", val)]
    returns. *)
Inductive Value :=
| VString (v : gostring)
| VInt (v : Z)
| VInt16 (v : Z)
| VInt32 (v : Z)
| VInt64 (v : Z)
| VFloat32 (bits : Z)
| VFloat64 (bits : Z)
| VStringer (text : gostring)
| VOther (sprintf_v : gostring).

(** [Fields] ranged over: the entries in the order the [range] statement
    yields them (Go leaves that order unspecified). *)
Definition Fields := list (gostring * Value).

(** ** The environment of a call *)

(** What the Go runtime and standard library supply to one call. *)
Record Runtime := {
  (** [time.Now()] rendered in a layout *)
  time_Now_Format : gostring -> gostring;
  (** [runtime.Caller(depth)]: file and line, or [None] when not ok *)
  runtime_Caller : Z -> option (gostring * Z);
  (** [strconv.FormatFloat(f, 'f', -1, bitSize)] on a bit pattern *)
  strconv_FormatFloat : Z -> Z -> gostring
}.

(** [strconv.Itoa] *)
Definition Itoa (n : Z) : gostring :=
  str (DecimalString.NilZero.string_of_int (Z.to_int n)).

(** Modelled from the spec: [AppendInt], [AppendFloat] and [AppendTime] are
    methods of the buffer declared outside [log.go].  Section 4.2: integers
    and floats are appended in minimal decimal formatting, floats with the
    precision of their width; section 4.3: the timestamp is formatted using
    the configured time format string. *)
Definition AppendInt (buf : byteBuffer) (n : Z) : byteBuffer := buf ++ Itoa n.
Definition AppendFloat (w : Runtime) (buf : byteBuffer) (bits bitSize : Z) : byteBuffer :=
  buf ++ strconv_FormatFloat w bits bitSize.
Definition AppendTime (w : Runtime) (buf : byteBuffer) (format : gostring) : byteBuffer :=
  buf ++ time_Now_Format w format.

(** ** Effects

    A computation performs events in order and then returns, panics or
    exits the process. *)
Inductive Event :=
| EvPoolGet
| EvTimeNow
| EvRuntimeCaller (depth : Z)
| EvWrite (p : gostring)
| EvStdlogPrintf (msg : gostring)
| EvBufReset
| EvPoolPut.

Inductive Outcome (A : Type) :=
| Returned (a : A)
| Panicked
| Exited (code : Z).
Arguments Returned {A} a.
Arguments Panicked {A}.
Arguments Exited {A} code.

Definition M (A : Type) : Type := list Event * Outcome A.

Definition ret {A} (a : A) : M A := ([], Returned a).

Definition bind {A B} (m : M A) (k : A -> M B) : M B :=
  match m with
  | (es, Returned a) => let '(es', o) := k a in (es ++ es', o)
  | (es, Panicked) => (es, Panicked)
  | (es, Exited c) => (es, Exited c)
  end.

Definition emit (e : Event) : M unit := ([e], Returned tt).

(** A value, or the panic of an index out of range. *)
Definition orPanic {A} (o : option A) : M A :=
  match o with
  | Some a => ret a
  | None => ([], Panicked)
  end.

Definition os_Exit (code : Z) : M unit := ([], Exited code).

Notation "x <- m ;; k" := (bind m (fun x => k))
  (at level 61, m at next level, right associativity).
Notation "m ;;; k" := (bind m (fun _ => k))
  (at level 61, right associativity).

Definition trace {A} (m : M A) : list Event := fst m.
Definition outcome {A} (m : M A) : Outcome A := snd m.

(** ** The logger *)

(** An [io.Writer]: the error [Write] returns for the bytes, if any. *)
Definition Writer := gostring -> option gostring.

Record Logger := {
  out : Writer;
  level : Level;
  tsFormat : gostring;
  enableColor : bool;
  enableCaller : bool;
  callerSkipFrameCount : Z;
  scope : gostring
}.

(** [New]: a writer is always given here ([nil] selects standard error). *)
Definition New (o : Writer) : Logger :=
  {| out := o; level := InfoLevel; tsFormat := defaultTSFormat;
     enableColor := false; enableCaller := false;
     callerSkipFrameCount := 0; scope := str "general" |}.

Definition SetLevel (l : Logger) (lvl : Level) : Logger :=
  {| out := out l; level := lvl; tsFormat := tsFormat l;
     enableColor := enableColor l; enableCaller := enableCaller l;
     callerSkipFrameCount := callerSkipFrameCount l; scope := scope l |}.

Definition SetColorOutput (l : Logger) (color : bool) : Logger :=
  {| out := out l; level := level l; tsFormat := tsFormat l;
     enableColor := color; enableCaller := enableCaller l;
     callerSkipFrameCount := callerSkipFrameCount l; scope := scope l |}.

Definition SetCallerFrame (l : Logger) (c : bool) (depth : Z) : Logger :=
  {| out := out l; level := level l; tsFormat := tsFormat l;
     enableColor := enableColor l; enableCaller := c;
     callerSkipFrameCount := depth; scope := scope l |}.

(** The key of a field as [writeStringToBuf] and [writeToBuf] write it. *)
Definition writeKey (buf : byteBuffer) (key : gostring) (lvl : Level) (color : bool)
  : option byteBuffer :=
  if color then
    match getColoredKey key lvl with
    | Some ck => Some (escapeAndWriteString buf ck)
    | None => None
    end
  else Some (escapeAndWriteString buf key).

(** [writeTimeToBuf] writes timestamp key + timestamp into buffer. *)
Definition writeTimeToBuf (w : Runtime) (buf : byteBuffer) (format : gostring)
    (lvl : Level) (color : bool) : M byteBuffer :=
  buf <- orPanic (if color
                  then option_map (AppendString buf) (getColoredKey tsKey lvl)
                  else Some (AppendString buf tsKey)) ;;
  emit EvTimeNow ;;;
  ret (AppendByte (AppendTime w buf format) space).

(** [writeStringToBuf] *)
Definition writeStringToBuf (buf : byteBuffer) (key val : gostring) (lvl : Level)
    (color space_ : bool) : option byteBuffer :=
  match writeKey buf key lvl color with
  | None => None
  | Some buf =>
      let buf := AppendByte buf equals in
      let buf := escapeAndWriteString buf val in
      Some (if space_ then AppendByte buf space else buf)
  end.

(** [writeToBuf] *)
Definition writeToBuf (w : Runtime) (buf : byteBuffer) (key : gostring) (val : Value)
    (lvl : Level) (color space_ : bool) : option byteBuffer :=
  match writeKey buf key lvl color with
  | None => None
  | Some buf =>
      let buf := AppendByte buf equals in
      let buf :=
        match val with
        | VString v => escapeAndWriteString buf v
        | VInt v => AppendInt buf v
        | VInt16 v => AppendInt buf v
        | VInt32 v => AppendInt buf v
        | VInt64 v => AppendInt buf v
        | VFloat32 v => AppendFloat w buf v 32
        | VFloat64 v => AppendFloat w buf v 64
        | VStringer text => escapeAndWriteString buf text
        | VOther sprintf_v => escapeAndWriteString buf sprintf_v
        end in
      Some (if space_ then AppendByte buf space else buf)
  end.

(** [caller] returns the file:line of the caller. *)
Definition caller (w : Runtime) (depth : Z) : M gostring :=
  emit (EvRuntimeCaller depth) ;;;
  let '(file, line) :=
    match runtime_Caller w depth with
    | Some fl => fl
    | None => (str "???", 0)
    end in
  ret (file ++ str ":" ++ Itoa line).

(** The [for k, v := range fields] loop of [handleLog]; [n] is
    [len(fields)] and [count] the loop counter. *)
Fixpoint writeFields (w : Runtime) (buf : byteBuffer) (rest : Fields) (n count : Z)
    (lvl : Level) (color : bool) : option byteBuffer :=
  match rest with
  | [] => Some buf
  | (k, v) :: rest' =>
      let space_ := negb (count =? n - 1) in
      match writeToBuf w buf k v lvl color space_ with
      | None => None
      | Some buf => writeFields w buf rest' n (count + 1) lvl color
      end
  end.

(** [handleLog] emits the log after filtering log level and applying
    formatting of the fields. *)
Definition handleLog (w : Runtime) (l : Logger) (msg : gostring) (lvl : Level)
    (fields : Fields) : M unit :=
  if lvl <? level l then ret tt
  else
    (* Modelled from the spec: the pool is declared outside [log.go];
       section 4.1: [Get] returns a buffer ready for appending, reset. *)
    emit EvPoolGet ;;;
    let buf : byteBuffer := [] in
    buf <- writeTimeToBuf w buf (tsFormat l) lvl (enableColor l) ;;
    buf <- orPanic (writeToBuf w buf (str "level") (VStringer (Level_String lvl))
                      lvl (enableColor l) true) ;;
    buf <- orPanic (writeStringToBuf buf (str "message") msg lvl (enableColor l) true) ;;
    buf <- orPanic (writeStringToBuf buf scopeKey (scope l) lvl (enableColor l) true) ;;
    buf <- (if enableCaller l then
              c <- caller w (callerSkipFrameCount l) ;;
              orPanic (writeToBuf w buf (str "caller") (VString c) lvl (enableColor l) true)
            else ret buf) ;;
    buf <- orPanic (writeFields w buf fields (Z.of_nat (length fields)) 0
                      lvl (enableColor l)) ;;
    let buf := AppendString buf [newline] in
    emit (EvWrite buf) ;;;
    (match out l buf with
     | Some err => emit (EvStdlogPrintf (str "error logging: " ++ err))
     | None => ret tt
     end) ;;;
    emit EvBufReset ;;;
    emit EvPoolPut.

(** The entry points. *)
Definition Debug (w : Runtime) (l : Logger) (msg : gostring) : M unit :=
  handleLog w l msg DebugLevel [].
Definition Info (w : Runtime) (l : Logger) (msg : gostring) : M unit :=
  handleLog w l msg InfoLevel [].
Definition Warn (w : Runtime) (l : Logger) (msg : gostring) : M unit :=
  handleLog w l msg WarnLevel [].
Definition Error (w : Runtime) (l : Logger) (msg : gostring) : M unit :=
  handleLog w l msg ErrorLevel [].
Definition Fatal (w : Runtime) (l : Logger) (msg : gostring) : M unit :=
  handleLog w l msg FatalLevel [] ;;;
  os_Exit 1.

(** A runtime and a writer to run examples with. *)
Definition exampleRuntime : Runtime :=
  {| time_Now_Format := fun _ => str "2022-07-07T12:09:10.221+05:30";
     runtime_Caller := fun _ => Some (str "/app/main.go", 42);
     strconv_FormatFloat := fun _ _ => str "3.14" |}.

Definition okWriter : Writer := fun _ => None.
Definition failingWriter : Writer := fun _ => Some (str "disk full").

(** ** Rune view of a string

    A string read rune by rune, the way [range] and [writeQuotedString]
    read it: each element is the decoded rune with the bytes it spans. *)
Equations? Runes (s : gostring) : list (Z * gostring) by wf (length s) lt :=
  Runes [] := [];
  Runes (b :: t) :=
    (fst (utf8.DecodeRuneInString (b :: t)),
     firstn (snd (utf8.DecodeRuneInString (b :: t))) (b :: t))
    :: Runes (skipn (snd (utf8.DecodeRuneInString (b :: t))) (b :: t)).
Proof.
  assert (Hne : b :: t <> []) by discriminate.
  pose proof (DecodeRuneInString_size _ Hne) as Hsz.
  rewrite length_skipn. cbn [length] in *. lia.
Qed.

(** An undecodable byte: the decoder returns [(RuneError, 1)]. *)
Definition undecodable (u : Z * gostring) : bool :=
  (fst u =? utf8.RuneError) && (length (snd u) =? 1)%nat.

(** The rune U+FFFD, however it arose. *)
Definition isRuneError (u : Z * gostring) : bool := fst u =? utf8.RuneError.

(** [utf8.ValidString] *)
Definition ValidString (s : gostring) : bool :=
  forallb (fun u => negb (undecodable u)) (Runes s).

(** The encoding of U+FFFD. *)
Definition replacementBytes : gostring := [xef; xbf; xbd].

(** The string with every undecodable byte replaced by U+FFFD. *)
Definition toValid (s : gostring) : gostring :=
  flat_map (fun u => if undecodable u then replacementBytes else snd u) (Runes s).

(** ** The quoted form in the words of the specification *)

Definition hexDigits (b : byte) : gostring :=
  [nth (Z.to_nat (b2z b / 16)) hex x00; nth (Z.to_nat (b2z b mod 16)) hex x00].

(** Section 4.2, step 2, for one byte below 0x80. *)
Definition escapeASCII (b : byte) : gostring :=
  if Byte.eqb b backslash || Byte.eqb b dquote then [backslash; b]
  else if Byte.eqb b x0a then [backslash; x6e]
  else if Byte.eqb b x0d then [backslash; x72]
  else if Byte.eqb b x09 then [backslash; x74]
  else if b2z b <? 0x20 then backslash :: str "u00" ++ hexDigits b
  else [b].

Definition replacementEscape : gostring := backslash :: str "ufffd".

(** One rune of the text; [repl] says which runes are written as the
    replacement escape. *)
Definition escapeUnit (repl : Z * gostring -> bool) (u : Z * gostring) : gostring :=
  if fst u <? utf8.RuneSelf then flat_map escapeASCII (snd u)
  else if repl u then replacementEscape
  else snd u.

Definition quoted (repl : Z * gostring -> bool) (s : gostring) : gostring :=
  [dquote] ++ flat_map (escapeUnit repl) (Runes s) ++ [dquote].

(** ** Unescaping a quoted form *)

Definition hexVal (b : byte) : option Z :=
  let c := b2z b in
  if (0x30 <=? c) && (c <=? 0x39) then Some (c - 0x30)
  else if (0x61 <=? c) && (c <=? 0x66) then Some (c - 0x61 + 10)
  else if (0x41 <=? c) && (c <=? 0x46) then Some (c - 0x41 + 10)
  else None.

(** [utf8.AppendRune] for the code points a four-digit escape can name. *)
Definition encodeRune (c : Z) : gostring :=
  if c <? 0x80 then [z2b c]
  else if c <? 0x800 then [z2b (0xC0 + c / 64); z2b (0x80 + c mod 64)]
  else if (0xD800 <=? c) && (c <=? 0xDFFF) then replacementBytes
  else [z2b (0xE0 + c / 4096); z2b (0x80 + (c / 64) mod 64); z2b (0x80 + c mod 64)].

(** The text between the quotes, up to the closing quote, which must end
    the input. *)
Fixpoint unescape (s : gostring) : option gostring :=
  match s with
  | [] => None
  | b :: t =>
      if Byte.eqb b dquote then
        match t with [] => Some [] | _ :: _ => None end
      else if Byte.eqb b backslash then
        match t with
        | [] => None
        | c :: t1 =>
            if Byte.eqb c backslash || Byte.eqb c dquote then
              option_map (cons c) (unescape t1)
            else if Byte.eqb c x6e then option_map (cons x0a) (unescape t1)
            else if Byte.eqb c x72 then option_map (cons x0d) (unescape t1)
            else if Byte.eqb c x74 then option_map (cons x09) (unescape t1)
            else if Byte.eqb c x75 then
              match t1 with
              | h1 :: h2 :: h3 :: h4 :: t2 =>
                  match hexVal h1, hexVal h2, hexVal h3, hexVal h4 with
                  | Some a, Some b', Some c', Some d =>
                      option_map (app (encodeRune (((a * 16 + b') * 16 + c') * 16 + d)))
                                 (unescape t2)
                  | _, _, _, _ => None
                  end
              | _ => None
              end
            else None
        end
      else option_map (cons b) (unescape t)
  end.

Definition unquote (s : gostring) : option gostring :=
  match s with
  | b :: t => if Byte.eqb b dquote then unescape t else None
  | [] => None
  end.

(** ** Predicates of the statements *)

(** A continuation byte. *)
Definition cont (b : byte) : Prop := 0x80 <= b2z b <= 0xBF.

(** What the decoder can return on a non-empty string. *)
Inductive decoded : gostring -> Z -> nat -> Prop :=
| dec_ascii b t :
    b2z b < 0x80 -> decoded (b :: t) (b2z b) 1
| dec_invalid b t :
    0x80 <= b2z b -> decoded (b :: t) utf8.RuneError 1
| dec_two b0 b1 t :
    0xC2 <= b2z b0 <= 0xDF -> cont b1 ->
    decoded (b0 :: b1 :: t) ((b2z b0 - 0xC0) * 64 + (b2z b1 - 0x80)) 2
| dec_three b0 b1 b2 t :
    0xE0 <= b2z b0 <= 0xEF -> cont b1 -> cont b2 ->
    (b2z b0 = 0xE0 -> 0xA0 <= b2z b1) ->
    decoded (b0 :: b1 :: b2 :: t)
      ((b2z b0 - 0xE0) * 4096 + (b2z b1 - 0x80) * 64 + (b2z b2 - 0x80)) 3
| dec_four b0 b1 b2 b3 t :
    0xF0 <= b2z b0 <= 0xF4 -> cont b1 -> cont b2 -> cont b3 ->
    (b2z b0 = 0xF0 -> 0x90 <= b2z b1) ->
    decoded (b0 :: b1 :: b2 :: b3 :: t)
      ((b2z b0 - 0xF0) * 262144 + (b2z b1 - 0x80) * 4096
       + (b2z b2 - 0x80) * 64 + (b2z b3 - 0x80)) 4.

(** Some rune of the string satisfies [f]. *)
Definition anyRune (f : Z -> bool) (s : gostring) : bool :=
  existsb (fun u => f (fst u)) (Runes s).

(** A byte the quoting loop leaves in the pending run. *)
Definition plainByte (b : byte) : bool :=
  (0x20 <=? b2z b) && negb (b2z b =? b2z backslash) && negb (b2z b =? b2z dquote).

(** The string contains the rune U+FFFD in its own encoding. *)
Definition hasReplacementChar (s : gostring) : bool :=
  existsb (fun u => isRuneError u && negb (undecodable u)) (Runes s).

(** The text contains one of the three structural characters. *)
Definition hasStructural (s : gostring) : Prop :=
  In equals s \/ In dquote s \/ In space s.

(** The text contains a byte below 0x20. *)
Definition hasControlByte (s : gostring) : Prop :=
  exists b, In b s /\ b2z b < 0x20.

(** A message of two lines. *)
Definition twoLineMessage : gostring := [x61; newline; x62].

(** A structural character followed by a well-formed U+FFFD. *)
Definition spaceThenReplacement : gostring := [space; xef; xbf; xbd].

(** A newline followed by a well-formed U+FFFD. *)
Definition newlineThenReplacement : gostring := [newline; xef; xbf; xbd].

(** ** The line [handleLog] assembles *)

(** The five severities. *)
Definition isSeverity (lvl : Level) : Prop := DebugLevel <= lvl <= FatalLevel.

(** [colorLvlMap[lvl]] *)
Definition colorOf (lvl : Level) : gostring := nth (Z.to_nat lvl) colorLvlMap [].

(** The key text handed to the writer: wrapped in the colour and the reset
    code when colouring is on. *)
Definition keyText (color : bool) (lvl : Level) (key : gostring) : gostring :=
  if color then colorOf lvl ++ key ++ reset else key.

(** The text of a value after the [=]. *)
Definition valueText (w : Runtime) (v : Value) : gostring :=
  match v with
  | VString s => escapeAndWriteString [] s
  | VInt n | VInt16 n | VInt32 n | VInt64 n => Itoa n
  | VFloat32 bits => strconv_FormatFloat w bits 32
  | VFloat64 bits => strconv_FormatFloat w bits 64
  | VStringer t => escapeAndWriteString [] t
  | VOther t => escapeAndWriteString [] t
  end.

(** One [key=value] field. *)
Definition fieldText (w : Runtime) (color : bool) (lvl : Level)
    (kv : gostring * Value) : gostring :=
  escapeAndWriteString [] (keyText color lvl (fst kv)) ++ [equals] ++ valueText w (snd kv).

(** The timestamp field: its key is appended without escaping. *)
Definition timeText (w : Runtime) (color : bool) (lvl : Level) (format : gostring)
  : gostring :=
  keyText color lvl tsKey ++ time_Now_Format w format.

(** The text [caller] returns. *)
Definition callerText (w : Runtime) (depth : Z) : gostring :=
  match runtime_Caller w depth with
  | Some (file, line) => file ++ str ":" ++ Itoa line
  | None => str "???:0"
  end.

(** The fields every line starts with, in order. *)
Definition fixedFields (w : Runtime) (l : Logger) (msg : gostring) (lvl : Level)
  : list gostring :=
  [ timeText w (enableColor l) lvl (tsFormat l);
    fieldText w (enableColor l) lvl (str "level", VStringer (Level_String lvl));
    fieldText w (enableColor l) lvl (str "message", VString msg);
    fieldText w (enableColor l) lvl (scopeKey, VString (scope l)) ]
  ++ (if enableCaller l
      then [fieldText w (enableColor l) lvl
              (str "caller", VString (callerText w (callerSkipFrameCount l)))]
      else []).

(** Texts separated by single spaces. *)
Fixpoint joinSp (ts : list gostring) : gostring :=
  match ts with
  | [] => []
  | [t] => t
  | t :: ts' => t ++ [space] ++ joinSp ts'
  end.

(** The bytes handed to the writer: every fixed field is followed by a
    space, the caller's fields are separated by spaces. *)
Definition lineOf (w : Runtime) (l : Logger) (msg : gostring) (lvl : Level)
    (fields : Fields) : gostring :=
  flat_map (fun t => t ++ [space]) (fixedFields w l msg lvl)
  ++ joinSp (map (fieldText w (enableColor l) lvl) fields)
  ++ [newline].

(** The events of a call that passes the level filter. *)
Definition emissionEvents (w : Runtime) (l : Logger) (msg : gostring) (lvl : Level)
    (fields : Fields) : list Event :=
  [EvPoolGet; EvTimeNow]
  ++ (if enableCaller l then [EvRuntimeCaller (callerSkipFrameCount l)] else [])
  ++ [EvWrite (lineOf w l msg lvl fields)]
  ++ match out l (lineOf w l msg lvl fields) with
     | Some err => [EvStdlogPrintf (str "error logging: " ++ err)]
     | None => []
     end
  ++ [EvBufReset; EvPoolPut].

Definition sep (sp : bool) : gostring := if sp then [space] else [].

(** The buffers handed to the writer, in order. *)
Fixpoint writes (es : list Event) : list gostring :=
  match es with
  | [] => []
  | EvWrite p :: es' => p :: writes es'
  | _ :: es' => writes es'
  end.

(** ** Sample inputs *)

(** A runtime whose stack walk resolves no frame. *)
Definition noFrameRuntime : Runtime :=
  {| time_Now_Format := time_Now_Format exampleRuntime;
     runtime_Caller := fun _ => None;
     strconv_FormatFloat := strconv_FormatFloat exampleRuntime |}.

Definition callerLogger : Logger := SetCallerFrame (New okWriter) true 3.


Definition sampleFields : Fields :=
  [(str "count", VInt 42); (str "ratio", VFloat64 0); (str "name", VString (str "ok"))].

Definition sampleLogger : Logger :=
  {| out := okWriter; level := InfoLevel; tsFormat := defaultTSFormat;
     enableColor := false; enableCaller := false;
     callerSkipFrameCount := 0; scope := str "svc" |}.

Definition asciiText (t : gostring) : Prop := Forall (fun a => b2z a < 0x80) t.

(** The text needs quoting. *)
Definition needsQuoting (s : gostring) : bool := anyRune checkEscapingRune s.

Definition escFree (s : gostring) : Prop := ~ In escbyte s.

(** The text of a value before escaping. *)
Definition valueSource (w : Runtime) (v : Value) : gostring :=
  match v with
  | VString s | VStringer s | VOther s => s
  | VInt n | VInt16 n | VInt32 n | VInt64 n => Itoa n
  | VFloat32 bits => strconv_FormatFloat w bits 32
  | VFloat64 bits => strconv_FormatFloat w bits 64
  end.

(** A message that starts with a colour code. *)
Definition redMessage : gostring := escbyte :: str "[31mX".

Definition colorLogger : Logger := SetColorOutput (New okWriter) true.

Definition cleanFields : Fields :=
  [(str "count", VInt 42); (str "name", VString (str "ok"))].

(** ** The remaining configuration methods *)

(** [SetWriter] sets the output writer for the logger. *)
Definition SetWriter (l : Logger) (o : Writer) : Logger :=
  {| out := o; level := level l; tsFormat := tsFormat l;
     enableColor := enableColor l; enableCaller := enableCaller l;
     callerSkipFrameCount := callerSkipFrameCount l; scope := scope l |}.

(** [SetTimestampFormat] sets the timestamp format. *)
Definition SetTimestampFormat (l : Logger) (f : gostring) : Logger :=
  {| out := out l; level := level l; tsFormat := f;
     enableColor := enableColor l; enableCaller := enableCaller l;
     callerSkipFrameCount := callerSkipFrameCount l; scope := scope l |}.

(** [SetScope] stores the namespace; the method has a pointer receiver, the
    updated logger is the one the pointer refers to afterwards. *)
Definition SetScope (l : Logger) (sc : gostring) : Logger :=
  {| out := out l; level := level l; tsFormat := tsFormat l;
     enableColor := enableColor l; enableCaller := enableCaller l;
     callerSkipFrameCount := callerSkipFrameCount l; scope := sc |}.

(** ** Reading a value token back *)

(** A value token as a consumer reads it: a token that starts with a double
    quote is unquoted, any other token is the text itself. *)
Definition readValue (tok : gostring) : option gostring :=
  match tok with
  | b :: _ => if Byte.eqb b dquote then unquote tok else Some tok
  | [] => Some []
  end.

(** How often an event occurs in a trace. *)
Definition countEvent (p : Event -> bool) (es : list Event) : nat :=
  length (filter p es).

Definition isPoolGet (e : Event) : bool :=
  match e with EvPoolGet => true | _ => false end.
Definition isPoolPut (e : Event) : bool :=
  match e with EvPoolPut => true | _ => false end.
Definition isBufReset (e : Event) : bool :=
  match e with EvBufReset => true | _ => false end.
Definition isTimeNow (e : Event) : bool :=
  match e with EvTimeNow => true | _ => false end.
Definition isWrite (e : Event) : bool :=
  match e with EvWrite _ => true | _ => false end.
Definition isRuntimeCaller (e : Event) : bool :=
  match e with EvRuntimeCaller _ => true | _ => false end.

(** A field token as a consumer reads it when the key is bare: the key is
    the text before the first ['='], the value is read from the rest. *)
Fixpoint splitAtEquals (tok : gostring) : option (gostring * gostring) :=
  match tok with
  | [] => None
  | b :: t =>
      if Byte.eqb b equals then Some ([], t)
      else match splitAtEquals t with
           | Some (k, v) => Some (b :: k, v)
           | None => None
           end
  end.

Definition readField (tok : gostring) : option (gostring * gostring) :=
  match splitAtEquals tok with
  | Some (k, v) => option_map (pair k) (readValue v)
  | None => None
  end.

(** A level outside the five severities. *)
Definition unknownLevel : Level := 5.

(** What the escaping rule writes for a text, in the words of the
    specification: the quoted form when the text needs quoting, the text
    itself otherwise. *)
Definition escapedText (s : gostring) : gostring :=
  if needsQuoting s then quoted isRuneError s else s.

(** Fields of which one key needs quoting and one does not. *)
Definition mixedFields : Fields :=
  [(str "a b", VInt 1); (str "ok", VString (str "x y"))].

(** * Proofs *)

Example ex_plain : escapeAndWriteString [] (str "hello") = str "hello".
Proof. vm_compute. reflexivity. Qed.

Example ex_quoted :
  escapeAndWriteString [] (str "hello " ++ [dquote] ++ str "world" ++ [dquote; newline])
  = [dquote] ++ str "hello \" ++ [dquote] ++ str "world\" ++ [dquote] ++ str "\n" ++ [dquote].
Proof. vm_compute. reflexivity. Qed.

Example ex_unquote :
  unquote (escapeAndWriteString [] (str "a b" ++ [x0a; x01; xff; dquote; backslash]))
  = Some (str "a b" ++ [x0a; x01] ++ replacementBytes ++ [dquote; backslash]).
Proof. vm_compute. reflexivity. Qed.

Example ex_runes : Runes [x41; xc3; xa9; xff; xef; xbf; xbd]
  = [(0x41, [x41]); (0xE9, [xc3; xa9]); (0xFFFD, [xff]); (0xFFFD, [xef; xbf; xbd])].
Proof. vm_compute. reflexivity. Qed.

(** * Properties of the decoder *)

Lemma b2z_range (b : byte) : 0 <= b2z b < 256.
Proof. pose proof (Byte.to_N_bounded b). unfold b2z. lia. Qed.

Lemma b2z_inj (a b : byte) : b2z a = b2z b -> a = b.
Proof.
  unfold b2z. intros H. apply N2Z.inj in H.
  pose proof (Byte.of_to_N a) as Ha. pose proof (Byte.of_to_N b) as Hb.
  congruence.
Qed.

Lemma z2b_b2z (b : byte) : z2b (b2z b) = b.
Proof. unfold z2b, b2z. rewrite N2Z.id, Byte.of_to_N. reflexivity. Qed.

Lemma b2z_z2b (z : Z) : 0 <= z < 256 -> b2z (z2b z) = z.
Proof.
  intros Hz. unfold z2b, b2z.
  destruct (Byte.of_N (Z.to_N z)) as [b|] eqn:E.
  - apply Byte.to_of_N in E. lia.
  - apply Byte.of_N_None_iff in E. lia.
Qed.

Lemma eqb_b2z (a b : byte) : Byte.eqb a b = (b2z a =? b2z b).
Proof.
  destruct (Byte.eqb a b) eqn:E.
  - apply Byte.byte_dec_bl in E. subst. symmetry. apply Z.eqb_refl.
  - symmetry. apply Z.eqb_neq. intros H. apply b2z_inj in H. subst.
    rewrite (Byte.byte_dec_lb eq_refl) in E. discriminate.
Qed.

(** Disjoint bit fields add up. *)
Lemma lor_mul_pow2 (a b n : Z) :
  0 <= n -> 0 <= b < 2 ^ n -> Z.lor (a * 2 ^ n) b = a * 2 ^ n + b.
Proof.
  intros Hn Hb.
  rewrite <- Z.add_lor_land.
  assert (E : Z.land (a * 2 ^ n) b = 0); [|rewrite E; lia].
  apply Z.bits_inj'. intros k Hk.
  rewrite Z.land_spec, Z.bits_0.
  destruct (Z.lt_ge_cases k n) as [Hlt|Hge].
  - rewrite Z.mul_pow2_bits_low by lia. reflexivity.
  - destruct (Z.eq_dec b 0) as [->|Hb0].
    + rewrite Z.bits_0. apply andb_false_r.
    + rewrite (Z.bits_above_log2 b k); [apply andb_false_r|lia|].
      apply Z.log2_lt_pow2; [lia|].
      apply Z.lt_le_trans with (2 ^ n); [lia|].
      apply Z.pow_le_mono_r; lia.
Qed.

Lemma land_cont (z : Z) : 0x80 <= z <= 0xBF -> Z.land z utf8.maskx = z - 0x80.
Proof.
  intros H. change utf8.maskx with (Z.ones 6).
  rewrite Z.land_ones by lia. change (2 ^ 6) with 64.
  Z.div_mod_to_equations. lia.
Qed.

Lemma land_lead2 (z : Z) : 0xC0 <= z <= 0xDF -> Z.land z utf8.mask2 = z - 0xC0.
Proof.
  intros H. change utf8.mask2 with (Z.ones 5).
  rewrite Z.land_ones by lia. change (2 ^ 5) with 32.
  Z.div_mod_to_equations. lia.
Qed.

Lemma land_lead3 (z : Z) : 0xE0 <= z <= 0xEF -> Z.land z utf8.mask3 = z - 0xE0.
Proof.
  intros H. change utf8.mask3 with (Z.ones 4).
  rewrite Z.land_ones by lia. change (2 ^ 4) with 16.
  Z.div_mod_to_equations. lia.
Qed.

Lemma land_lead4 (z : Z) : 0xF0 <= z <= 0xF7 -> Z.land z utf8.mask4 = z - 0xF0.
Proof.
  intros H. change utf8.mask4 with (Z.ones 3).
  rewrite Z.land_ones by lia. change (2 ^ 3) with 8.
  Z.div_mod_to_equations. lia.
Qed.

Lemma rune2 (a b : Z) :
  0xC0 <= a <= 0xDF -> 0x80 <= b <= 0xBF ->
  Z.lor (Z.shiftl (Z.land a utf8.mask2) 6) (Z.land b utf8.maskx)
  = (a - 0xC0) * 64 + (b - 0x80).
Proof.
  intros Ha Hb. rewrite land_lead2, land_cont by lia.
  rewrite Z.shiftl_mul_pow2 by lia.
  rewrite lor_mul_pow2 by lia. reflexivity.
Qed.

Lemma rune3 (a b c : Z) :
  0xE0 <= a <= 0xEF -> 0x80 <= b <= 0xBF -> 0x80 <= c <= 0xBF ->
  Z.lor (Z.lor (Z.shiftl (Z.land a utf8.mask3) 12) (Z.shiftl (Z.land b utf8.maskx) 6))
        (Z.land c utf8.maskx)
  = (a - 0xE0) * 4096 + (b - 0x80) * 64 + (c - 0x80).
Proof.
  intros Ha Hb Hc. rewrite land_lead3, !land_cont by lia.
  rewrite !Z.shiftl_mul_pow2 by lia.
  rewrite (lor_mul_pow2 _ _ 12) by lia.
  replace ((a - 224) * 2 ^ 12 + (b - 128) * 2 ^ 6)
    with (((a - 224) * 64 + (b - 128)) * 2 ^ 6) by lia.
  rewrite lor_mul_pow2 by lia. lia.
Qed.

Lemma rune4 (a b c d : Z) :
  0xF0 <= a <= 0xF7 -> 0x80 <= b <= 0xBF -> 0x80 <= c <= 0xBF -> 0x80 <= d <= 0xBF ->
  Z.lor (Z.lor (Z.lor (Z.shiftl (Z.land a utf8.mask4) 18)
                      (Z.shiftl (Z.land b utf8.maskx) 12))
               (Z.shiftl (Z.land c utf8.maskx) 6))
        (Z.land d utf8.maskx)
  = (a - 0xF0) * 262144 + (b - 0x80) * 4096 + (c - 0x80) * 64 + (d - 0x80).
Proof.
  intros Ha Hb Hc Hd. rewrite land_lead4, !land_cont by lia.
  rewrite !Z.shiftl_mul_pow2 by lia.
  rewrite (lor_mul_pow2 _ _ 18) by lia.
  replace ((a - 240) * 2 ^ 18 + (b - 128) * 2 ^ 12)
    with (((a - 240) * 64 + (b - 128)) * 2 ^ 12) by lia.
  rewrite (lor_mul_pow2 _ _ 12) by lia.
  replace (((a - 240) * 64 + (b - 128)) * 2 ^ 12 + (c - 128) * 2 ^ 6)
    with ((((a - 240) * 64 + (b - 128)) * 64 + (c - 128)) * 2 ^ 6) by lia.
  rewrite lor_mul_pow2 by lia. lia.
Qed.

Lemma decode_ascii (b : byte) (t : gostring) :
  b2z b < 0x80 -> utf8.DecodeRuneInString (b :: t) = (b2z b, 1%nat).
Proof.
  intros Hb. unfold utf8.DecodeRuneInString, utf8.at_, utf8.first.
  cbn [length nth]. change (S (length t) <? 1)%nat with false. cbv iota.
  destruct (Z.ltb_spec (b2z b) 0x80); [|lia]. reflexivity.
Qed.

Lemma first_rows (z : Z) :
  0x80 <= z < 256 ->
  (utf8.first z = utf8.xx) \/
  (utf8.first z = utf8.s1 /\ 0xC2 <= z <= 0xDF) \/
  (utf8.first z = utf8.s2 /\ z = 0xE0) \/
  (utf8.first z = utf8.s3 /\ 0xE1 <= z <= 0xEF) \/
  (utf8.first z = utf8.s4 /\ z = 0xED) \/
  (utf8.first z = utf8.s5 /\ z = 0xF0) \/
  (utf8.first z = utf8.s6 /\ 0xF1 <= z <= 0xF3) \/
  (utf8.first z = utf8.s7 /\ z = 0xF4).
Proof.
  intros Hz. unfold utf8.first.
  repeat match goal with
  | |- context [if ?a <? ?b then _ else _] => destruct (Z.ltb_spec a b)
  | |- context [if ?a =? ?b then _ else _] => destruct (Z.eqb_spec a b)
  end; try lia; tauto || (repeat (first [left; split; [reflexivity | lia] | right])).
Qed.

(** Evaluate the constants of one row of the decoder. *)
Ltac eval_row :=
  cbv beta zeta delta [utf8.as_ utf8.xx utf8.s1 utf8.s2 utf8.s3 utf8.s4
                       utf8.s5 utf8.s6 utf8.s7 utf8.locb utf8.hicb];
  repeat match goal with
  | |- context [?a <=? ?b] =>
      let v := eval vm_compute in (a <=? b) in change (a <=? b) with v
  | |- context [Z.to_nat (Z.land ?a 7)] =>
      let v := eval vm_compute in (Z.to_nat (Z.land a 7)) in
      change (Z.to_nat (Z.land a 7)) with v
  | |- context [utf8.acceptRanges ?a] =>
      let v := eval vm_compute in (utf8.acceptRanges a) in
      change (utf8.acceptRanges a) with v
  end;
  cbn [fst snd length nth Nat.ltb Nat.leb].

Ltac split_conds :=
  repeat match goal with
  | |- context [if (?a <? ?b) || (?c <? ?d) then _ else _] =>
      destruct (Z.ltb_spec a b); destruct (Z.ltb_spec c d); cbn [orb fst snd]
  end.

Lemma decode_decoded (s : gostring) :
  s <> [] ->
  decoded s (fst (utf8.DecodeRuneInString s)) (snd (utf8.DecodeRuneInString s)).
Proof.
  destruct s as [|b0 t]; [congruence|]. intros _.
  pose proof (b2z_range b0) as R0.
  destruct (Z.lt_ge_cases (b2z b0) 0x80) as [Hlo|Hhi].
  { rewrite decode_ascii by exact Hlo. now constructor. }
  unfold utf8.DecodeRuneInString, utf8.at_.
  cbn [length nth]. change (S (length t) <? 1)%nat with false. cbv iota.
  destruct (first_rows (b2z b0) ltac:(lia))
    as [E|[[E R]|[[E R]|[[E R]|[[E R]|[[E R]|[[E R]|[E R]]]]]]]]; rewrite E.
  - vm_compute (utf8.as_ <=? utf8.xx). vm_compute (utf8.xx =? utf8.xx).
    cbn [fst snd]. now apply dec_invalid.
  - destruct t as [|b1 t]; eval_row; [now apply dec_invalid|].
    split_conds; try (now apply dec_invalid).
    rewrite rune2 by lia. apply dec_two; unfold cont; lia.
  - destruct t as [|b1 [|b2 t]]; eval_row; try (now apply dec_invalid);
      split_conds; try (now apply dec_invalid).
    rewrite rune3 by lia. apply dec_three; unfold cont; lia.
  - destruct t as [|b1 [|b2 t]]; eval_row; try (now apply dec_invalid);
      split_conds; try (now apply dec_invalid).
    rewrite rune3 by lia. apply dec_three; unfold cont; lia.
  - destruct t as [|b1 [|b2 t]]; eval_row; try (now apply dec_invalid);
      split_conds; try (now apply dec_invalid).
    rewrite rune3 by lia. apply dec_three; unfold cont; lia.
  - destruct t as [|b1 [|b2 [|b3 t]]]; eval_row; try (now apply dec_invalid);
      split_conds; try (now apply dec_invalid).
    rewrite rune4 by lia. apply dec_four; unfold cont; lia.
  - destruct t as [|b1 [|b2 [|b3 t]]]; eval_row; try (now apply dec_invalid);
      split_conds; try (now apply dec_invalid).
    rewrite rune4 by lia. apply dec_four; unfold cont; lia.
  - destruct t as [|b1 [|b2 [|b3 t]]]; eval_row; try (now apply dec_invalid);
      split_conds; try (now apply dec_invalid).
    rewrite rune4 by lia. apply dec_four; unfold cont; lia.
Qed.

(** * The rune view *)

Lemma Runes_cons (s : gostring) :
  s <> [] ->
  Runes s = (fst (utf8.DecodeRuneInString s),
             firstn (snd (utf8.DecodeRuneInString s)) s)
            :: Runes (skipn (snd (utf8.DecodeRuneInString s)) s).
Proof.
  destruct s as [|b t]; [congruence|]. intros _.
  now rewrite Runes_equation_2.
Qed.

(** Induction on a string rune by rune. *)
Lemma rune_ind (P : gostring -> Prop) :
  P [] ->
  (forall s, s <> [] -> P (skipn (snd (utf8.DecodeRuneInString s)) s) -> P s) ->
  forall s, P s.
Proof.
  intros Hnil Hstep s.
  remember (length s) as n eqn:Hn. revert s Hn.
  induction n as [n IH] using lt_wf_ind. intros s Hn.
  destruct s as [|b t]; [exact Hnil|].
  apply Hstep; [discriminate|].
  eapply IH; [|reflexivity].
  pose proof (DecodeRuneInString_size (b :: t) ltac:(discriminate)).
  rewrite length_skipn. subst n. lia.
Qed.

Lemma Runes_bytes (s : gostring) : flat_map snd (Runes s) = s.
Proof.
  induction s as [|s Hs IH] using rune_ind; [reflexivity|].
  rewrite Runes_cons by exact Hs. cbn [flat_map snd].
  rewrite IH. apply firstn_skipn.
Qed.

(** The shape of one rune: a byte below 0x80 standing for itself, or a
    rune of at least 0x80 spanning bytes of at least 0x80; U+FFFD arises
    from one undecodable byte or from its own three-byte encoding. *)
Lemma rune_shape (s : gostring) :
  s <> [] ->
  let c := fst (utf8.DecodeRuneInString s) in
  let bs := firstn (snd (utf8.DecodeRuneInString s)) s in
  (exists b, bs = [b] /\ c = b2z b /\ b2z b < 0x80) \/
  (0x80 <= c /\ Forall (fun b => 0x80 <= b2z b) bs /\
   (c = utf8.RuneError -> length bs = 1%nat \/ bs = replacementBytes) /\
   (length bs = 1%nat -> c = utf8.RuneError)).
Proof.
  intros Hs. pose proof (decode_decoded s Hs) as D. cbv zeta.
  destruct D as [b t Hb | b t Hb | b0 b1 t H0 H1 | b0 b1 b2 t H0 H1 H2 HE
                | b0 b1 b2 b3 t H0 H1 H2 H3 HF]; unfold cont in *; cbn [firstn].
  - left. exists b. repeat split; auto.
  - right. unfold utf8.RuneError. repeat split; try lia; auto.
  - right. unfold utf8.RuneError. repeat split; try lia.
    + repeat constructor; lia.
    + cbn. lia.
  - right. unfold utf8.RuneError. repeat split; try lia.
    + repeat constructor; lia.
    + intros Hc. right. unfold replacementBytes.
      assert (b2z b0 = b2z xef /\ b2z b1 = b2z xbf /\ b2z b2 = b2z xbd) as (E0 & E1 & E2).
      { change (b2z xef) with 239. change (b2z xbf) with 191.
        change (b2z xbd) with 189. lia. }
      apply b2z_inj in E0, E1, E2. now subst.
    + cbn. lia.
  - right. unfold utf8.RuneError. repeat split; try lia.
    + repeat constructor; lia.
    + cbn. lia.
Qed.

(** * [IndexFunc] finds the first rune satisfying the function *)

Lemma indexFunc_done (f : Z -> bool) (s : gostring) (i : nat) :
  (length s <= i)%nat -> strings.indexFunc f s i = -1.
Proof.
  intros H. rewrite strings.indexFunc_equation_1.
  destruct (lt_dec i (length s)); [lia|]. reflexivity.
Qed.

Lemma indexFunc_step (f : Z -> bool) (s : gostring) (i : nat) :
  (i < length s)%nat ->
  strings.indexFunc f s i =
  if f (fst (utf8.DecodeRuneInString (skipn i s))) then Z.of_nat i
  else strings.indexFunc f s (i + snd (utf8.DecodeRuneInString (skipn i s))).
Proof.
  intros H. rewrite strings.indexFunc_equation_1.
  destruct (lt_dec i (length s)); [|lia]. reflexivity.
Qed.

Lemma skipn_nonempty {A} (s : list A) (i : nat) :
  (i < length s)%nat -> skipn i s <> [].
Proof.
  intros H E. apply (f_equal (@length A)) in E.
  rewrite length_skipn in E. cbn in E. lia.
Qed.

Lemma skipn_add {A} (s : list A) (i k : nat) :
  skipn (i + k) s = skipn k (skipn i s).
Proof. rewrite skipn_skipn. f_equal. lia. Qed.

Lemma indexFunc_spec (f : Z -> bool) (s : gostring) (i : nat) :
  (i <= length s)%nat ->
  if anyRune f (skipn i s)
  then 0 <= strings.indexFunc f s i
  else strings.indexFunc f s i = -1.
Proof.
  remember (length s - i)%nat as n eqn:Hn. revert i Hn.
  induction n as [n IH] using lt_wf_ind. intros i Hn Hi.
  destruct (Nat.eq_dec i (length s)) as [->|Hne].
  - rewrite skipn_all. cbn. apply indexFunc_done. lia.
  - assert (Hlt : (i < length s)%nat) by lia.
    pose proof (skipn_nonempty s i Hlt) as Hs.
    pose proof (DecodeRuneInString_size _ Hs) as Hsz.
    rewrite length_skipn in Hsz.
    rewrite indexFunc_step by exact Hlt.
    unfold anyRune. rewrite Runes_cons by exact Hs. cbn [existsb fst].
    destruct (f (fst (utf8.DecodeRuneInString (skipn i s)))); cbn [orb]; [lia|].
    rewrite <- skipn_add.
    apply (IH (length s - (i + snd (utf8.DecodeRuneInString (skipn i s))))%nat);
      lia.
Qed.

Lemma IndexFunc_spec (f : Z -> bool) (s : gostring) :
  negb (strings.IndexFunc s f =? -1) = anyRune f s.
Proof.
  unfold strings.IndexFunc.
  pose proof (indexFunc_spec f s 0 ltac:(lia)) as H. cbn [skipn] in H.
  destruct (anyRune f s).
  - destruct (Z.eqb_spec (strings.indexFunc f s 0) (-1)); [lia|reflexivity].
  - rewrite H. reflexivity.
Qed.

(** * [writeQuotedString] writes the quoted form *)

Lemma writeQuotedLoop_done (s : gostring) (i start : nat) (buf : byteBuffer) :
  (length s <= i)%nat ->
  writeQuotedLoop s i start buf = AppendByte (flushRun buf s start (length s)) dquote.
Proof.
  intros H. rewrite writeQuotedLoop_equation_1.
  destruct (lt_dec i (length s)); [lia|]. reflexivity.
Qed.

Lemma writeQuotedLoop_step (s : gostring) (i start : nat) (buf : byteBuffer) :
  (i < length s)%nat ->
  writeQuotedLoop s i start buf =
  let b := nth i s x00 in
  if b2z b <? utf8.RuneSelf then
    if (0x20 <=? b2z b) && negb (b2z b =? b2z backslash) && negb (b2z b =? b2z dquote)
    then writeQuotedLoop s (i + 1) start buf
    else writeQuotedLoop s (i + 1) (i + 1)
           (writeEscapedByte (flushRun buf s start i) b)
  else
    if fst (utf8.DecodeRuneInString (skipn i s)) =? utf8.RuneError then
      writeQuotedLoop s
        (i + snd (utf8.DecodeRuneInString (skipn i s)))
        (i + snd (utf8.DecodeRuneInString (skipn i s)))
        (AppendString (flushRun buf s start i) (backslash :: str "ufffd"))
    else
      writeQuotedLoop s (i + snd (utf8.DecodeRuneInString (skipn i s))) start buf.
Proof.
  intros H. rewrite writeQuotedLoop_equation_1.
  destruct (lt_dec i (length s)); [|lia]. reflexivity.
Qed.

Lemma firstn_plus {A} (a k : nat) (l : list A) :
  firstn (a + k) l = firstn a l ++ firstn k (skipn a l).
Proof.
  revert l. induction a as [|a IH]; intros l; [reflexivity|].
  destruct l as [|x l]; cbn [Nat.add firstn skipn app].
  - now rewrite firstn_nil.
  - now rewrite IH.
Qed.

Lemma slice_extend (s : gostring) (start i k : nat) :
  (start <= i)%nat ->
  slice s start (i + k) = slice s start i ++ firstn k (skipn i s).
Proof.
  intros H. unfold slice.
  replace (i + k - start)%nat with ((i - start) + k)%nat by lia.
  rewrite firstn_plus, skipn_skipn.
  replace (i - start + start)%nat with i by lia. reflexivity.
Qed.

Lemma slice_empty (s : gostring) (i : nat) : slice s i i = [].
Proof. unfold slice. now rewrite Nat.sub_diag. Qed.

Lemma flushRun_spec (buf : byteBuffer) (s : gostring) (start i : nat) :
  (start <= i)%nat -> flushRun buf s start i = buf ++ slice s start i.
Proof.
  intros H. unfold flushRun, AppendString.
  destruct (Nat.ltb_spec start i); [reflexivity|].
  replace i with start by lia. rewrite slice_empty, app_nil_r. reflexivity.
Qed.

Lemma skipn_nth (s : gostring) (i : nat) :
  (i < length s)%nat -> skipn i s = nth i s x00 :: skipn (i + 1) s.
Proof.
  revert i. induction s as [|a s IH]; intros i Hi; cbn [length] in Hi; [lia|].
  destruct i as [|i]; [reflexivity|].
  cbn [skipn nth Nat.add]. apply IH. lia.
Qed.

Lemma writeEscapedByte_app (buf : byteBuffer) (b : byte) :
  writeEscapedByte buf b = buf ++ writeEscapedByte [] b.
Proof.
  unfold writeEscapedByte, AppendByte, AppendString.
  repeat match goal with |- context [if ?c then _ else _] => destruct c end;
    cbn [app]; rewrite <- ?app_assoc; reflexivity.
Qed.

Lemma escapeASCII_plain (b : byte) :
  plainByte b = true -> escapeASCII b = [b].
Proof. destruct b; intros H; try discriminate H; reflexivity. Qed.

Lemma writeEscapedByte_spec (b : byte) :
  b2z b < 0x80 -> plainByte b = false -> writeEscapedByte [] b = escapeASCII b.
Proof.
  destruct b; intros H1 H2; try discriminate H2; try reflexivity;
    exfalso; revert H1; vm_compute; congruence.
Qed.

Lemma writeQuotedLoop_spec (s : gostring) (i start : nat) (buf : byteBuffer) :
  (start <= i <= length s)%nat ->
  writeQuotedLoop s i start buf
  = buf ++ slice s start i
        ++ flat_map (escapeUnit isRuneError) (Runes (skipn i s)) ++ [dquote].
Proof.
  remember (length s - i)%nat as n eqn:Hn. revert i start buf Hn.
  induction n as [n IH] using lt_wf_ind. intros i start buf Hn Hi.
  destruct (Nat.eq_dec i (length s)) as [->|Hne].
  - rewrite writeQuotedLoop_done by lia.
    rewrite skipn_all. rewrite Runes_equation_1. cbn [flat_map app].
    rewrite flushRun_spec by lia. unfold AppendByte.
    now rewrite <- app_assoc.
  - assert (Hlt : (i < length s)%nat) by lia.
    pose proof (skipn_nonempty s i Hlt) as Hs.
    pose proof (DecodeRuneInString_size _ Hs) as Hsz.
    rewrite length_skipn in Hsz.
    pose proof (skipn_nth s i Hlt) as Hcons.
    rewrite writeQuotedLoop_step by exact Hlt. cbv zeta.
    set (b := nth i s x00) in *.
    rewrite (Runes_cons _ Hs). cbn [flat_map].
    unfold utf8.RuneSelf.
    destruct (Z.ltb_spec (b2z b) 0x80) as [Hb|Hb].
    + (* a byte below 0x80 *)
      assert (Hd : utf8.DecodeRuneInString (skipn i s) = (b2z b, 1%nat))
        by (rewrite Hcons; now apply decode_ascii).
      assert (Hf : firstn 1 (skipn i s) = [b]) by now rewrite Hcons.
      rewrite Hd. cbn [fst snd]. rewrite Hf, <- skipn_add.
      unfold escapeUnit at 1. cbn [fst snd flat_map]. unfold utf8.RuneSelf.
      destruct (Z.ltb_spec (b2z b) 0x80); [|lia]. rewrite app_nil_r.
      fold (plainByte b).
      destruct (plainByte b) eqn:Hp.
      * rewrite (IH (length s - (i + 1))%nat) by lia.
        rewrite (slice_extend s start i 1) by lia.
        rewrite Hf, escapeASCII_plain by exact Hp.
        rewrite <- !app_assoc. reflexivity.
      * rewrite (IH (length s - (i + 1))%nat) by lia.
        rewrite slice_empty, writeEscapedByte_app, flushRun_spec by lia.
        rewrite writeEscapedByte_spec by assumption.
        cbn [app]. rewrite <- !app_assoc. reflexivity.
    + (* a byte starting a longer encoding *)
      pose proof (rune_shape _ Hs) as Sh. cbv zeta in Sh.
      destruct Sh as [(b' & Eb & Ec & Hlo)|(Hc & _)].
      { exfalso. rewrite Hcons in Eb.
        destruct (snd (utf8.DecodeRuneInString (b :: skipn (i + 1) s)));
          [discriminate|]. cbn [firstn] in Eb. injection Eb as -> _. lia. }
      unfold escapeUnit at 1. cbn [fst snd]. unfold utf8.RuneSelf.
      destruct (Z.ltb_spec (fst (utf8.DecodeRuneInString (skipn i s))) 0x80); [lia|].
      unfold isRuneError at 1. cbn [fst].
      rewrite <- skipn_add.
      destruct (fst (utf8.DecodeRuneInString (skipn i s)) =? utf8.RuneError).
      * rewrite (IH (length s - (i + snd (utf8.DecodeRuneInString (skipn i s))))%nat)
          by lia.
        rewrite slice_empty, flushRun_spec by lia. unfold AppendString.
        unfold replacementEscape. cbn [app]. rewrite <- !app_assoc. reflexivity.
      * rewrite (IH (length s - (i + snd (utf8.DecodeRuneInString (skipn i s))))%nat)
          by lia.
        rewrite slice_extend by lia. rewrite <- !app_assoc. reflexivity.
Qed.

Lemma writeQuotedString_spec (buf : byteBuffer) (s : gostring) :
  writeQuotedString buf s = buf ++ quoted isRuneError s.
Proof.
  unfold writeQuotedString, quoted, AppendByte.
  rewrite writeQuotedLoop_spec by lia.
  rewrite slice_empty. cbn [skipn app]. rewrite <- app_assoc. reflexivity.
Qed.

(** The two paths of [escapeAndWriteString]. *)
Lemma escapeAndWriteString_spec (buf : byteBuffer) (s : gostring) :
  escapeAndWriteString buf s =
  if anyRune checkEscapingRune s then buf ++ quoted isRuneError s else buf ++ s.
Proof.
  unfold escapeAndWriteString. cbv zeta. rewrite IndexFunc_spec.
  destruct (anyRune checkEscapingRune s);
    [apply writeQuotedString_spec | reflexivity].
Qed.

(** * Which strings are quoted *)

Lemma anyRune_orb (f g : Z -> bool) (s : gostring) :
  anyRune (fun c => f c || g c) s = anyRune f s || anyRune g s.
Proof.
  unfold anyRune. induction (Runes s) as [|u l IH]; [reflexivity|].
  cbn [existsb]. rewrite IH.
  destruct (f (fst u)), (g (fst u)), (existsb (fun u => f (fst u)) l); reflexivity.
Qed.

(** A byte below 0x80 occurs in a string exactly when it occurs as a rune:
    it is never part of a longer encoding. *)
Lemma anyRune_ascii (b : byte) (s : gostring) :
  b2z b < 0x80 ->
  anyRune (fun c => c =? b2z b) s = true <-> In b s.
Proof.
  intros Hb. unfold anyRune.
  induction s as [|s Hs IH] using rune_ind.
  - rewrite Runes_equation_1. cbn. split; [discriminate|tauto].
  - rewrite Runes_cons by exact Hs. cbn [existsb fst].
    assert (Hsplit : In b s <->
              In b (firstn (snd (utf8.DecodeRuneInString s)) s) \/
              In b (skipn (snd (utf8.DecodeRuneInString s)) s))
      by (rewrite <- in_app_iff, firstn_skipn; reflexivity).
    rewrite Hsplit, orb_true_iff, IH.
    apply or_iff_compat_r.
    destruct (rune_shape s Hs) as [(b' & Eb & Ec & Hlo)|(Hc & Hall & _)].
    + rewrite Eb, Ec. cbn [In]. rewrite Z.eqb_eq. split.
      * intros E. left. now apply b2z_inj.
      * intros [->|[]]. reflexivity.
    + split.
      * rewrite Z.eqb_eq. lia.
      * intros Hin. rewrite Forall_forall in Hall. apply Hall in Hin. lia.
Qed.

Lemma anyRune_RuneError (s : gostring) :
  anyRune (fun c => c =? utf8.RuneError) s
  = negb (ValidString s) || hasReplacementChar s.
Proof.
  unfold anyRune, ValidString, hasReplacementChar.
  induction (Runes s) as [|u l IH]; [reflexivity|].
  cbn [existsb forallb]. rewrite IH.
  generalize (forallb (fun u => negb (undecodable u)) l).
  generalize (existsb (fun u => isRuneError u && negb (undecodable u)) l).
  unfold isRuneError, undecodable. intros x y.
  destruct (fst u =? utf8.RuneError), (length (snd u) =? 1)%nat, x, y;
    reflexivity.
Qed.

Lemma needsQuote_iff (s : gostring) :
  anyRune checkEscapingRune s = true <->
  hasStructural s \/ ValidString s = false \/ hasReplacementChar s = true.
Proof.
  unfold checkEscapingRune, hasStructural.
  rewrite !anyRune_orb, !orb_true_iff, anyRune_RuneError, orb_true_iff,
    negb_true_iff.
  rewrite !anyRune_ascii by (vm_compute; reflexivity). tauto.
Qed.

(** * Unescaping the quoted form *)

Lemma unescape_ascii (b : byte) (rest : gostring) :
  b2z b < 0x80 ->
  unescape (escapeASCII b ++ rest) = option_map (cons b) (unescape rest).
Proof.
  destruct b; intros H; try reflexivity; exfalso; revert H; vm_compute; congruence.
Qed.

Lemma unescape_high (bs rest : gostring) :
  Forall (fun b => 0x80 <= b2z b) bs ->
  unescape (bs ++ rest) = option_map (app bs) (unescape rest).
Proof.
  induction 1 as [|b bs Hb _ IH]; cbn [app].
  - now destruct (unescape rest).
  - cbn [unescape]. rewrite !eqb_b2z.
    change (b2z dquote) with 34. change (b2z backslash) with 92.
    destruct (Z.eqb_spec (b2z b) 34); [lia|].
    destruct (Z.eqb_spec (b2z b) 92); [lia|].
    rewrite IH. now destruct (unescape rest).
Qed.

Lemma unescape_replacement (rest : gostring) :
  unescape (replacementEscape ++ rest)
  = option_map (app replacementBytes) (unescape rest).
Proof. reflexivity. Qed.

Lemma unescape_unit (s rest : gostring) :
  s <> [] ->
  let u := (fst (utf8.DecodeRuneInString s),
            firstn (snd (utf8.DecodeRuneInString s)) s) in
  unescape (escapeUnit isRuneError u ++ rest)
  = option_map (app (if undecodable u then replacementBytes else snd u))
               (unescape rest).
Proof.
  intros Hs u. subst u. unfold escapeUnit, isRuneError, undecodable.
  cbn [fst snd]. unfold utf8.RuneSelf.
  destruct (rune_shape s Hs) as [(b & Eb & Ec & Hlo)|(Hc & Hall & Hre & _)].
  - rewrite Eb, Ec.
    destruct (Z.ltb_spec (b2z b) 0x80); [|lia].
    cbn [flat_map]. rewrite app_nil_r, unescape_ascii by exact Hlo.
    destruct (Z.eqb_spec (b2z b) utf8.RuneError) as [E|_];
      [unfold utf8.RuneError in E; lia|].
    cbn [andb]. now destruct (unescape rest).
  - destruct (Z.ltb_spec (fst (utf8.DecodeRuneInString s)) 0x80); [lia|].
    destruct (Z.eqb_spec (fst (utf8.DecodeRuneInString s)) utf8.RuneError) as [E|_].
    + rewrite unescape_replacement. cbn [andb].
      destruct (Hre E) as [H1|H3].
      * rewrite H1. reflexivity.
      * rewrite H3. reflexivity.
    + cbn [andb]. now apply unescape_high.
Qed.

Lemma toValid_cons (s : gostring) :
  s <> [] ->
  toValid s =
  (let u := (fst (utf8.DecodeRuneInString s),
             firstn (snd (utf8.DecodeRuneInString s)) s) in
   if undecodable u then replacementBytes else snd u)
  ++ toValid (skipn (snd (utf8.DecodeRuneInString s)) s).
Proof.
  intros Hs. unfold toValid. rewrite Runes_cons by exact Hs. reflexivity.
Qed.

Lemma unescape_body (s : gostring) :
  unescape (flat_map (escapeUnit isRuneError) (Runes s) ++ [dquote])
  = Some (toValid s).
Proof.
  induction s as [|s Hs IH] using rune_ind.
  - reflexivity.
  - rewrite toValid_cons by exact Hs.
    rewrite Runes_cons by exact Hs. cbn [flat_map].
    rewrite <- app_assoc, unescape_unit by exact Hs.
    rewrite IH. reflexivity.
Qed.

Lemma unquote_quoted (s : gostring) :
  unquote (quoted isRuneError s) = Some (toValid s).
Proof. unfold quoted. cbn [app unquote]. apply unescape_body. Qed.

Lemma toValid_valid (s : gostring) : ValidString s = true -> toValid s = s.
Proof.
  unfold ValidString, toValid. intros H.
  rewrite <- (Runes_bytes s) at 2.
  induction (Runes s) as [|u l IH]; [reflexivity|].
  cbn [forallb flat_map] in *. apply andb_true_iff in H as [Hu Hl].
  apply negb_true_iff in Hu. rewrite Hu, IH by exact Hl. reflexivity.
Qed.

(** * The escaping rule *)

(** C1, as stated, fails: in the string made of a space and the three bytes
    of a well-formed U+FFFD nothing is undecodable, yet those three bytes
    are not copied verbatim: the code writes the replacement escape for
    them.  The quoted form with only undecodable bytes replaced differs
    from what [escapeAndWriteString] appends. *)
Lemma quoted_form_replaces_valid_replacement_char :
  hasStructural spaceThenReplacement /\
  ValidString spaceThenReplacement = true /\
  escapeAndWriteString [] spaceThenReplacement
    = [dquote; space] ++ replacementEscape ++ [dquote] /\
  quoted undecodable spaceThenReplacement
    = [dquote; space; xef; xbf; xbd; dquote] /\
  escapeAndWriteString [] spaceThenReplacement
    <> [] ++ quoted undecodable spaceThenReplacement.
Proof.
  repeat split.
  - right. right. left. reflexivity.
  - vm_compute. discriminate.
Qed.

(** C1 (amended): for every string containing one of '=', double quote or space, or
    an undecodable byte, [escapeAndWriteString] appends the text wrapped
    in double quotes in which backslash and double quote are
    backslash-escaped, newline, carriage return and tab become [\n], [\r]
    and [\t], every other byte below 0x20 becomes [\u00XX], every
    undecodable byte and every encoded U+FFFD becomes the replacement escape, and all
    other bytes are copied verbatim; unescaping the quoted form yields the
    text with each undecodable byte replaced by U+FFFD, which is the text
    itself when it is valid UTF-8. *)
Theorem escapeAndWriteString_quotes (buf : byteBuffer) (s : gostring) :
  hasStructural s \/ ValidString s = false ->
  escapeAndWriteString buf s = buf ++ quoted isRuneError s /\
  unquote (quoted isRuneError s) = Some (toValid s) /\
  (ValidString s = true -> toValid s = s).
Proof.
  intros H. split; [|split].
  - rewrite escapeAndWriteString_spec.
    assert (E : anyRune checkEscapingRune s = true)
      by (apply needsQuote_iff; tauto).
    now rewrite E.
  - apply unquote_quoted.
  - apply toValid_valid.
Qed.

Lemma escapeAndWriteString_quotes_witness :
  (hasStructural (str "hello " ++ [dquote] ++ str "world" ++ [dquote; newline])
   \/ ValidString (str "hello " ++ [dquote] ++ str "world" ++ [dquote; newline]) = false) /\
  (escapeAndWriteString [] (str "hello " ++ [dquote] ++ str "world" ++ [dquote; newline])
   = [] ++ quoted isRuneError (str "hello " ++ [dquote] ++ str "world" ++ [dquote; newline]) /\
   unquote (quoted isRuneError (str "hello " ++ [dquote] ++ str "world" ++ [dquote; newline]))
   = Some (toValid (str "hello " ++ [dquote] ++ str "world" ++ [dquote; newline])) /\
   (ValidString (str "hello " ++ [dquote] ++ str "world" ++ [dquote; newline]) = true ->
    toValid (str "hello " ++ [dquote] ++ str "world" ++ [dquote; newline])
    = str "hello " ++ [dquote] ++ str "world" ++ [dquote; newline])).
Proof.
  assert (H : hasStructural (str "hello " ++ [dquote] ++ str "world" ++ [dquote; newline])
              \/ ValidString (str "hello " ++ [dquote] ++ str "world" ++ [dquote; newline]) = false).
  { left. right. left. vm_compute. tauto. }
  split; [exact H|].
  exact (escapeAndWriteString_quotes [] _ H).
Defined.

(** Text with no structural character, no undecodable byte and no encoded
    U+FFFD is appended as it is. *)
Lemma fast_path_raw (buf : byteBuffer) (s : gostring) :
  ~ hasStructural s ->
  ValidString s = true ->
  hasReplacementChar s = false ->
  escapeAndWriteString buf s = buf ++ s.
Proof.
  intros Hn Hv Hr. rewrite escapeAndWriteString_spec.
  destruct (anyRune checkEscapingRune s) eqn:E; [|reflexivity].
  apply needsQuote_iff in E. destruct E as [E|[E|E]]; [tauto|congruence|congruence].
Qed.

(** C2, as stated, fails: the three bytes of a well-formed U+FFFD contain
    none of '=', double quote and space and are valid UTF-8, yet they are quoted
    and rewritten. *)
Lemma valid_replacement_char_is_quoted :
  ~ hasStructural replacementBytes /\
  ValidString replacementBytes = true /\
  escapeAndWriteString [] replacementBytes = [dquote] ++ replacementEscape ++ [dquote] /\
  escapeAndWriteString [] replacementBytes <> [] ++ replacementBytes.
Proof.
  repeat split.
  - unfold hasStructural. cbn. intros [H|[H|H]];
      repeat (destruct H as [H|H]; [discriminate H|]); exact H.
  - vm_compute. discriminate.
Qed.

(** C2 (amended): for every string that contains none of '=', double quote and
    space, no undecodable byte and no encoded U+FFFD,
    [escapeAndWriteString] appends exactly the raw string. *)
Theorem escapeAndWriteString_fast_path (buf : byteBuffer) (s : gostring) :
  ~ hasStructural s ->
  ValidString s = true ->
  hasReplacementChar s = false ->
  escapeAndWriteString buf s = buf ++ s.
Proof. intros Hn Hv Hr. now apply fast_path_raw. Qed.

Ltac no_structural :=
  unfold hasStructural; cbn; intros [H|[H|H]];
  repeat (destruct H as [H|H]; [discriminate H|]); exact H.

Lemma escapeAndWriteString_fast_path_witness :
  (~ hasStructural (str "started") /\
   ValidString (str "started") = true /\
   hasReplacementChar (str "started") = false) /\
  escapeAndWriteString (str "message=") (str "started")
  = str "message=" ++ str "started".
Proof.
  assert (H1 : ~ hasStructural (str "started")) by no_structural.
  split; [repeat split; [exact H1]|].
  exact (escapeAndWriteString_fast_path (str "message=") (str "started")
           H1 eq_refl eq_refl).
Defined.

(** C5, as stated, fails: a newline followed by a well-formed U+FFFD is
    valid UTF-8, has a control byte and none of '=', double quote and space, yet the
    quoting path is taken and the newline is escaped. *)
Lemma control_byte_with_replacement_char_is_quoted :
  ValidString newlineThenReplacement = true /\
  hasControlByte newlineThenReplacement /\
  ~ hasStructural newlineThenReplacement /\
  escapeAndWriteString [] newlineThenReplacement
    = [dquote; backslash; x6e] ++ replacementEscape ++ [dquote] /\
  escapeAndWriteString [] newlineThenReplacement <> [] ++ newlineThenReplacement.
Proof.
  repeat split.
  - exists newline. split; [left; reflexivity | vm_compute; reflexivity].
  - no_structural.
  - vm_compute. discriminate.
Qed.

(** C5 (amended): for every valid-UTF-8 string that contains a byte below
    0x20 but none of '=', double quote and space and no encoded U+FFFD,
    [escapeAndWriteString] takes the fast path: the string is appended
    verbatim and unquoted, so each of its control bytes is in the buffer
    as it is, and a field written from it carries the raw bytes between
    the '=' and the separator. *)
Theorem control_bytes_pass_unescaped (buf : byteBuffer) (s : gostring) :
  ValidString s = true ->
  hasControlByte s ->
  ~ hasStructural s ->
  hasReplacementChar s = false ->
  escapeAndWriteString buf s = buf ++ s /\
  (exists b, b2z b < 0x20 /\ In b (escapeAndWriteString [] s)) /\
  (forall key lvl color sp,
     writeStringToBuf buf key s lvl color sp
     = option_map (fun kb => kb ++ [equals] ++ s ++ (if sp then [space] else []))
                  (writeKey buf key lvl color)).
Proof.
  intros Hv (b & Hin & Hb) Hn Hr.
  pose proof (fun buf => fast_path_raw buf s Hn Hv Hr) as Hfast.
  split; [apply Hfast|split].
  - exists b. split; [exact Hb|]. now rewrite Hfast.
  - intros key lvl color sp. unfold writeStringToBuf.
    destruct (writeKey buf key lvl color) as [kb|]; [|reflexivity].
    cbn [option_map]. rewrite Hfast. unfold AppendByte.
    destruct sp; rewrite <- ?app_assoc; cbn [app]; rewrite ?app_nil_r; reflexivity.
Qed.

Lemma control_bytes_pass_unescaped_witness :
  (ValidString twoLineMessage = true /\
   hasControlByte twoLineMessage /\
   ~ hasStructural twoLineMessage /\
   hasReplacementChar twoLineMessage = false) /\
  (escapeAndWriteString [] twoLineMessage = [] ++ twoLineMessage /\
   (exists b, b2z b < 0x20 /\ In b (escapeAndWriteString [] twoLineMessage)) /\
   (forall key lvl color sp,
      writeStringToBuf [] key twoLineMessage lvl color sp
      = option_map (fun kb => kb ++ [equals] ++ twoLineMessage
                              ++ (if sp then [space] else []))
                   (writeKey [] key lvl color))).
Proof.
  assert (H1 : hasControlByte twoLineMessage).
  { exists newline. split; [right; left; reflexivity | vm_compute; reflexivity]. }
  assert (H2 : ~ hasStructural twoLineMessage) by no_structural.
  split; [split; [reflexivity|split; [exact H1|split; [exact H2|reflexivity]]]|].
  exact (control_bytes_pass_unescaped [] twoLineMessage eq_refl H1 H2 eq_refl).
Defined.

(** * The line [handleLog] assembles *)

Lemma getColoredKey_severity (k : gostring) (lvl : Level) :
  isSeverity lvl -> getColoredKey k lvl = Some (colorOf lvl ++ k ++ reset).
Proof.
  unfold isSeverity, DebugLevel, FatalLevel. intros H.
  assert (E : lvl = 0 \/ lvl = 1 \/ lvl = 2 \/ lvl = 3 \/ lvl = 4) by lia.
  destruct E as [->|[->|[->|[->| ->]]]]; reflexivity.
Qed.

Lemma escapeAndWriteString_app (buf : byteBuffer) (s : gostring) :
  escapeAndWriteString buf s = buf ++ escapeAndWriteString [] s.
Proof.
  rewrite !escapeAndWriteString_spec.
  destruct (anyRune checkEscapingRune s); reflexivity.
Qed.

Lemma writeKey_text (buf : byteBuffer) (key : gostring) (lvl : Level) (color : bool) :
  isSeverity lvl \/ color = false ->
  writeKey buf key lvl color
  = Some (buf ++ escapeAndWriteString [] (keyText color lvl key)).
Proof.
  intros H. unfold writeKey, keyText. destruct color.
  - destruct H as [H|H]; [|discriminate].
    rewrite getColoredKey_severity by exact H.
    now rewrite escapeAndWriteString_app.
  - now rewrite escapeAndWriteString_app.
Qed.

Lemma writeToBuf_text (w : Runtime) (buf : byteBuffer) (key : gostring) (v : Value)
    (lvl : Level) (color sp : bool) :
  isSeverity lvl \/ color = false ->
  writeToBuf w buf key v lvl color sp
  = Some (buf ++ fieldText w color lvl (key, v) ++ sep sp).
Proof.
  intros H. unfold writeToBuf, fieldText. rewrite writeKey_text by exact H.
  cbv beta iota zeta. cbn [fst snd]. unfold AppendByte, AppendInt, AppendFloat, sep.
  f_equal.
  destruct v; cbn [valueText];
    try rewrite (escapeAndWriteString_app (_ ++ _));
    destruct sp; rewrite <- ?app_assoc; cbn [app]; rewrite ?app_nil_r; reflexivity.
Qed.

Lemma writeStringToBuf_text (w : Runtime) (buf : byteBuffer) (key val : gostring)
    (lvl : Level) (color sp : bool) :
  isSeverity lvl \/ color = false ->
  writeStringToBuf buf key val lvl color sp
  = Some (buf ++ fieldText w color lvl (key, VString val) ++ sep sp).
Proof.
  intros H. unfold writeStringToBuf, fieldText. rewrite writeKey_text by exact H.
  cbv beta iota zeta. cbn [fst snd valueText]. unfold AppendByte, sep. f_equal.
  rewrite (escapeAndWriteString_app (_ ++ _)).
  destruct sp; rewrite <- ?app_assoc; cbn [app]; rewrite ?app_nil_r; reflexivity.
Qed.

Lemma writeFields_text (w : Runtime) (rest : Fields) (buf : byteBuffer) (n count : Z)
    (lvl : Level) (color : bool) :
  isSeverity lvl \/ color = false ->
  count + Z.of_nat (length rest) = n ->
  writeFields w buf rest n count lvl color
  = Some (buf ++ joinSp (map (fieldText w color lvl) rest)).
Proof.
  intros H. revert buf count.
  induction rest as [|[k v] rest IH]; intros buf count Hn.
  - cbn. now rewrite app_nil_r.
  - cbn [writeFields]. rewrite writeToBuf_text by exact H.
    rewrite IH by (cbn [length] in Hn; lia).
    cbn [map joinSp]. f_equal. unfold sep.
    destruct rest as [|kv rest].
    + cbn [length] in Hn.
      destruct (Z.eqb_spec count (n - 1)); [|lia].
      cbn [negb map joinSp]. now rewrite !app_nil_r.
    + cbn [length] in Hn.
      destruct (Z.eqb_spec count (n - 1)); [lia|].
      cbn [negb map]. rewrite <- !app_assoc. reflexivity.
Qed.

Lemma caller_run (w : Runtime) (depth : Z) :
  caller w depth = ([EvRuntimeCaller depth], Returned (callerText w depth)).
Proof.
  unfold caller, callerText.
  destruct (runtime_Caller w depth) as [[file line]|]; reflexivity.
Qed.

Lemma writeTimeToBuf_run (w : Runtime) (buf : byteBuffer) (format : gostring)
    (lvl : Level) (color : bool) :
  isSeverity lvl \/ color = false ->
  writeTimeToBuf w buf format lvl color
  = ([EvTimeNow], Returned (buf ++ timeText w color lvl format ++ [space])).
Proof.
  intros H. unfold writeTimeToBuf, timeText, keyText.
  destruct color.
  - destruct H as [H|H]; [|discriminate].
    rewrite getColoredKey_severity by exact H.
    cbn. unfold AppendByte, AppendTime, AppendString.
    now rewrite <- !app_assoc.
  - cbn. unfold AppendByte, AppendTime, AppendString.
    now rewrite <- !app_assoc.
Qed.

Lemma bind_run {A B} (m : M A) (k : A -> M B) es a es' o :
  m = (es, Returned a) -> k a = (es', o) -> bind m k = (es ++ es', o).
Proof. intros -> H. unfold bind. now rewrite H. Qed.

Lemma orPanic_run {A} (o : option A) (a : A) :
  o = Some a -> orPanic o = ([], Returned a).
Proof. now intros ->. Qed.

Lemma callerField_run (w : Runtime) (l : Logger) (lvl : Level) (buf : byteBuffer) :
  isSeverity lvl \/ enableColor l = false ->
  (if enableCaller l then
     c <- caller w (callerSkipFrameCount l) ;;
     orPanic (writeToBuf w buf (str "caller") (VString c) lvl (enableColor l) true)
   else ret buf)
  = ((if enableCaller l then [EvRuntimeCaller (callerSkipFrameCount l)] else []),
     Returned (buf ++ flat_map (fun t => t ++ [space])
                 (if enableCaller l
                  then [fieldText w (enableColor l) lvl
                          (str "caller",
                           VString (callerText w (callerSkipFrameCount l)))]
                  else []))).
Proof.
  intros Hs. destruct (enableCaller l).
  - erewrite bind_run;
      [|apply caller_run
       |apply orPanic_run; now apply writeToBuf_text].
    unfold sep. cbn [flat_map app]. now rewrite !app_nil_r.
  - unfold ret. cbn [flat_map]. now rewrite app_nil_r.
Qed.

Lemma report_run (o : option gostring) :
  match o with
  | Some err => emit (EvStdlogPrintf (str "error logging: " ++ err))
  | None => ret tt
  end
  = (match o with
     | Some err => [EvStdlogPrintf (str "error logging: " ++ err)]
     | None => []
     end, Returned tt).
Proof. destruct o; reflexivity. Qed.

(** A call at or above the threshold performs the emission events and
    returns. *)
Lemma handleLog_emits (w : Runtime) (l : Logger) (msg : gostring) (lvl : Level)
    (fields : Fields) :
  isSeverity lvl \/ enableColor l = false ->
  level l <= lvl ->
  handleLog w l msg lvl fields = (emissionEvents w l msg lvl fields, Returned tt).
Proof.
  intros Hs Hl. unfold handleLog.
  destruct (Z.ltb_spec lvl (level l)); [lia|].
  etransitivity.
  { eapply bind_run; [reflexivity|].
    eapply bind_run; [now apply writeTimeToBuf_run|].
    eapply bind_run; [apply orPanic_run; now apply writeToBuf_text|].
    eapply bind_run; [apply orPanic_run; now apply (writeStringToBuf_text w)|].
    eapply bind_run; [apply orPanic_run; now apply (writeStringToBuf_text w)|].
    eapply bind_run; [now apply callerField_run|].
    eapply bind_run;
      [apply orPanic_run; apply writeFields_text; [exact Hs|lia]|].
    eapply bind_run; [reflexivity|].
    eapply bind_run; [apply report_run|].
    eapply bind_run; reflexivity. }
  unfold emissionEvents, lineOf, fixedFields, AppendString, sep.
  f_equal. cbn [app]. do 2 f_equal.
  match goal with
  | |- _ ++ EvWrite ?a :: _ = _ ++ EvWrite ?b :: _ =>
      replace a with b; [reflexivity|]
  end.
  cbn [flat_map]. rewrite <- !app_assoc. reflexivity.
Qed.

(** A call below the threshold does nothing. *)
Lemma handleLog_filtered (w : Runtime) (l : Logger) (msg : gostring) (lvl : Level)
    (fields : Fields) :
  lvl < level l -> handleLog w l msg lvl fields = ([], Returned tt).
Proof.
  intros H. unfold handleLog.
  destruct (Z.ltb_spec lvl (level l)); [reflexivity|lia].
Qed.

Lemma writes_app (es1 es2 : list Event) : writes (es1 ++ es2) = writes es1 ++ writes es2.
Proof.
  induction es1 as [|e es1 IH]; [reflexivity|].
  destruct e; cbn [app writes]; rewrite IH; reflexivity.
Qed.

Lemma writes_emissionEvents (w : Runtime) (l : Logger) (msg : gostring) (lvl : Level)
    (fields : Fields) :
  writes (emissionEvents w l msg lvl fields) = [lineOf w l msg lvl fields].
Proof.
  unfold emissionEvents. rewrite !writes_app.
  destruct (enableCaller l), (out l (lineOf w l msg lvl fields)); reflexivity.
Qed.

(** Both branches of the level filter at once. *)
Lemma handleLog_run (w : Runtime) (l : Logger) (msg : gostring) (lvl : Level)
    (fields : Fields) :
  isSeverity lvl \/ enableColor l = false ->
  handleLog w l msg lvl fields
  = ((if lvl <? level l then [] else emissionEvents w l msg lvl fields), Returned tt).
Proof.
  intros Hs. destruct (Z.ltb_spec lvl (level l)).
  - now apply handleLog_filtered.
  - now apply handleLog_emits.
Qed.

(** * The level filter *)

(** C3: for every record level [lvl] (one of the five severities, or any
    level when colouring is off) and every threshold [level l], a call
    hands a buffer to the writer if and only if [level l <= lvl]; below the
    threshold the call returns at once with no event at all: no buffer is
    taken from the pool, the clock is not read, the stack is not walked and
    the writer is not invoked. *)
Theorem level_filter (w : Runtime) (l : Logger) (msg : gostring) (lvl : Level)
    (fields : Fields) :
  isSeverity lvl \/ enableColor l = false ->
  ((exists p, In (EvWrite p) (trace (handleLog w l msg lvl fields)))
     <-> level l <= lvl) /\
  (lvl < level l -> handleLog w l msg lvl fields = ret tt) /\
  (level l <= lvl ->
     writes (trace (handleLog w l msg lvl fields)) = [lineOf w l msg lvl fields]).
Proof.
  intros Hs. rewrite handleLog_run by exact Hs.
  unfold trace, ret. cbn [fst].
  destruct (Z.ltb_spec lvl (level l)) as [Hlt|Hge]; repeat split.
  - intros [p []].
  - lia.
  - lia.
  - intros _. lia.
  - intros _. exists (lineOf w l msg lvl fields). unfold emissionEvents.
    apply in_or_app. right. apply in_or_app. right. left. reflexivity.
  - lia.
  - intros _. apply writes_emissionEvents.
Qed.

Lemma level_filter_witness :
  (isSeverity DebugLevel \/ enableColor (New okWriter) = false) /\
  (((exists p, In (EvWrite p)
                 (trace (handleLog exampleRuntime (New okWriter) (str "noisy")
                           DebugLevel [])))
      <-> level (New okWriter) <= DebugLevel) /\
   (DebugLevel < level (New okWriter) ->
    handleLog exampleRuntime (New okWriter) (str "noisy") DebugLevel [] = ret tt) /\
   (level (New okWriter) <= DebugLevel ->
    writes (trace (handleLog exampleRuntime (New okWriter) (str "noisy") DebugLevel []))
    = [lineOf exampleRuntime (New okWriter) (str "noisy") DebugLevel []])).
Proof.
  assert (H : isSeverity DebugLevel \/ enableColor (New okWriter) = false)
    by (left; unfold isSeverity, DebugLevel, FatalLevel; lia).
  split; [exact H|].
  exact (level_filter exampleRuntime (New okWriter) (str "noisy") DebugLevel [] H).
Defined.

(** * The fatal path *)

Lemma severity_constants :
  isSeverity DebugLevel /\ isSeverity InfoLevel /\ isSeverity WarnLevel /\
  isSeverity ErrorLevel /\ isSeverity FatalLevel.
Proof. unfold isSeverity; cbv; intuition congruence. Qed.

(** C6: [Fatal] performs the events of its emission (none when the
    threshold is above fatal) and then exits the process with status 1;
    [Debug], [Info], [Warn] and [Error] return to their caller. *)
Theorem Fatal_exits_others_return (w : Runtime) (l : Logger) (msg : gostring) :
  Fatal w l msg
  = ((if FatalLevel <? level l then [] else emissionEvents w l msg FatalLevel []),
     Exited 1) /\
  outcome (Debug w l msg) = Returned tt /\
  outcome (Info w l msg) = Returned tt /\
  outcome (Warn w l msg) = Returned tt /\
  outcome (Error w l msg) = Returned tt.
Proof.
  destruct severity_constants as (Hd & Hi & Hw & He & Hf).
  unfold Fatal, Debug, Info, Warn, Error.
  rewrite !handleLog_run by (left; assumption).
  repeat split.
  unfold bind, os_Exit. now rewrite app_nil_r.
Qed.

(** * The fallback formatting *)

Lemma escapeAndWriteString_escapedText (s : gostring) :
  escapeAndWriteString [] s = escapedText s.
Proof.
  rewrite escapeAndWriteString_spec. unfold escapedText, needsQuoting.
  destruct (anyRune checkEscapingRune s); reflexivity.
Qed.

(** C8: a value outside the listed types is written as the text of its
    default formatting passed through the escaping rule and appended after
    the [=]: the field is the escaped key, [=], then the quoted form of that
    text when it holds a structural character, an undecodable byte or
    U+FFFD and the text itself otherwise, then the separator.  These are
    the bytes a string value with the same text gives, and the value token
    reads back as the text (undecodable bytes replaced). *)
Theorem fallback_value_is_escaped (w : Runtime) (buf : byteBuffer) (key t : gostring)
    (lvl : Level) (color sp : bool) :
  isSeverity lvl \/ color = false ->
  writeToBuf w buf key (VOther t) lvl color sp
  = Some (buf ++ escapedText (keyText color lvl key) ++ [equals]
              ++ (if needsQuoting t then quoted isRuneError t else t)
              ++ (if sp then [space] else [])) /\
  writeToBuf w buf key (VOther t) lvl color sp
  = writeToBuf w buf key (VString t) lvl color sp /\
  (needsQuoting t = true <->
   hasStructural t \/ ValidString t = false \/ hasReplacementChar t = true) /\
  unquote (quoted isRuneError t) = Some (toValid t).
Proof.
  intros Hs. split; [|split; [|split]].
  - rewrite writeToBuf_text by exact Hs. unfold fieldText, sep.
    cbn [fst snd valueText]. rewrite !escapeAndWriteString_escapedText.
    unfold escapedText at 2. rewrite <- !app_assoc. reflexivity.
  - now rewrite !writeToBuf_text by exact Hs.
  - apply needsQuote_iff.
  - apply unquote_quoted.
Qed.

Lemma fallback_value_is_escaped_witness :
  (isSeverity ErrorLevel \/ true = false) /\
  (writeToBuf exampleRuntime (str "x ") (str "err") (VOther (str "disk full"))
     ErrorLevel true true
   = Some (str "x " ++ escapedText (keyText true ErrorLevel (str "err")) ++ [equals]
             ++ (if needsQuoting (str "disk full")
                 then quoted isRuneError (str "disk full") else str "disk full")
             ++ (if true then [space] else [])) /\
   writeToBuf exampleRuntime (str "x ") (str "err") (VOther (str "disk full"))
     ErrorLevel true true
   = writeToBuf exampleRuntime (str "x ") (str "err") (VString (str "disk full"))
       ErrorLevel true true /\
   (needsQuoting (str "disk full") = true <->
    hasStructural (str "disk full") \/ ValidString (str "disk full") = false
    \/ hasReplacementChar (str "disk full") = true) /\
   unquote (quoted isRuneError (str "disk full")) = Some (toValid (str "disk full"))).
Proof.
  assert (H : isSeverity ErrorLevel \/ true = false)
    by (left; unfold isSeverity; cbv; intuition congruence).
  split; [exact H|].
  exact (fallback_value_is_escaped exampleRuntime (str "x ") (str "err")
           (str "disk full") ErrorLevel true true H).
Defined.

(** A value of a type outside the switch whose default formatting holds a
    space, and one whose formatting is clean. *)
Example ex_fallback_value :
  writeToBuf exampleRuntime (str "x ") (str "err") (VOther (str "disk full"))
    ErrorLevel false true
  = Some (str "x err=" ++ [dquote] ++ str "disk full" ++ [dquote] ++ str " ") /\
  writeToBuf exampleRuntime [] (str "ok") (VOther (str "true")) ErrorLevel false false
  = Some (str "ok=true").
Proof. split; vm_compute; reflexivity. Qed.

(** * A failing writer *)

(** C9: when the writer returns an error for the line, [handleLog] reports
    it once through [stdlog.Printf], then resets the buffer and puts it back
    in the pool, and returns normally. *)
Theorem write_error_is_reported_and_swallowed (w : Runtime) (l : Logger)
    (msg : gostring) (lvl : Level) (fields : Fields) (err : gostring) :
  isSeverity lvl ->
  level l <= lvl ->
  out l (lineOf w l msg lvl fields) = Some err ->
  handleLog w l msg lvl fields
  = ([EvPoolGet; EvTimeNow]
     ++ (if enableCaller l then [EvRuntimeCaller (callerSkipFrameCount l)] else [])
     ++ [EvWrite (lineOf w l msg lvl fields);
         EvStdlogPrintf (str "error logging: " ++ err);
         EvBufReset; EvPoolPut],
     Returned tt).
Proof.
  intros Hs Hl He. rewrite handleLog_emits by (try left; assumption).
  unfold emissionEvents. rewrite He. reflexivity.
Qed.

Lemma write_error_is_reported_and_swallowed_witness :
  (isSeverity ErrorLevel /\
   level (New failingWriter) <= ErrorLevel /\
   out (New failingWriter)
     (lineOf exampleRuntime (New failingWriter) (str "boom") ErrorLevel [])
   = Some (str "disk full")) /\
  handleLog exampleRuntime (New failingWriter) (str "boom") ErrorLevel []
  = ([EvPoolGet; EvTimeNow]
     ++ (if enableCaller (New failingWriter)
         then [EvRuntimeCaller (callerSkipFrameCount (New failingWriter))] else [])
     ++ [EvWrite (lineOf exampleRuntime (New failingWriter) (str "boom") ErrorLevel []);
         EvStdlogPrintf (str "error logging: " ++ str "disk full");
         EvBufReset; EvPoolPut],
     Returned tt).
Proof.
  assert (H1 : isSeverity ErrorLevel) by (unfold isSeverity; cbv; intuition congruence).
  assert (H2 : level (New failingWriter) <= ErrorLevel) by (cbv; congruence).
  split; [split; [exact H1|split; [exact H2|reflexivity]]|].
  exact (write_error_is_reported_and_swallowed exampleRuntime (New failingWriter)
           (str "boom") ErrorLevel [] (str "disk full") H1 H2 eq_refl).
Defined.

(** * The caller placeholder *)

(** C10: when [runtime.Caller] resolves no frame, [caller] returns the
    placeholder [???:0], and an emission with caller capture enabled
    completes with the field [caller=???:0] after the scope field. *)
Theorem caller_placeholder (w : Runtime) (l : Logger) (msg : gostring) (lvl : Level)
    (fields : Fields) :
  isSeverity lvl ->
  level l <= lvl ->
  enableCaller l = true ->
  runtime_Caller w (callerSkipFrameCount l) = None ->
  caller w (callerSkipFrameCount l)
  = ([EvRuntimeCaller (callerSkipFrameCount l)], Returned (str "???:0")) /\
  handleLog w l msg lvl fields = (emissionEvents w l msg lvl fields, Returned tt) /\
  lineOf w l msg lvl fields
  = flat_map (fun t => t ++ [space])
      [ timeText w (enableColor l) lvl (tsFormat l);
        fieldText w (enableColor l) lvl (str "level", VStringer (Level_String lvl));
        fieldText w (enableColor l) lvl (str "message", VString msg);
        fieldText w (enableColor l) lvl (scopeKey, VString (scope l));
        escapeAndWriteString [] (keyText (enableColor l) lvl (str "caller"))
          ++ str "=???:0" ]
    ++ joinSp (map (fieldText w (enableColor l) lvl) fields)
    ++ [newline].
Proof.
  intros Hs Hl Hc Hr. split; [|split].
  - rewrite caller_run. unfold callerText. now rewrite Hr.
  - apply handleLog_emits; [left|]; assumption.
  - unfold lineOf, fixedFields. rewrite Hc. unfold callerText. rewrite Hr.
    reflexivity.
Qed.

Lemma caller_placeholder_witness :
  (isSeverity InfoLevel /\
   level callerLogger <= InfoLevel /\
   enableCaller callerLogger = true /\
   runtime_Caller noFrameRuntime (callerSkipFrameCount callerLogger) = None) /\
  (caller noFrameRuntime (callerSkipFrameCount callerLogger)
   = ([EvRuntimeCaller (callerSkipFrameCount callerLogger)], Returned (str "???:0")) /\
   handleLog noFrameRuntime callerLogger (str "hi") InfoLevel []
   = (emissionEvents noFrameRuntime callerLogger (str "hi") InfoLevel [], Returned tt) /\
   lineOf noFrameRuntime callerLogger (str "hi") InfoLevel []
   = flat_map (fun t => t ++ [space])
       [ timeText noFrameRuntime (enableColor callerLogger) InfoLevel
           (tsFormat callerLogger);
         fieldText noFrameRuntime (enableColor callerLogger) InfoLevel
           (str "level", VStringer (Level_String InfoLevel));
         fieldText noFrameRuntime (enableColor callerLogger) InfoLevel
           (str "message", VString (str "hi"));
         fieldText noFrameRuntime (enableColor callerLogger) InfoLevel
           (scopeKey, VString (scope callerLogger));
         escapeAndWriteString []
           (keyText (enableColor callerLogger) InfoLevel (str "caller"))
           ++ str "=???:0" ]
     ++ joinSp (map (fieldText noFrameRuntime (enableColor callerLogger) InfoLevel) [])
     ++ [newline]).
Proof.
  assert (H1 : isSeverity InfoLevel) by (unfold isSeverity; cbv; intuition congruence).
  assert (H2 : level callerLogger <= InfoLevel) by (cbv; congruence).
  split; [split; [exact H1|split; [exact H2|split; reflexivity]]|].
  exact (caller_placeholder noFrameRuntime callerLogger (str "hi") InfoLevel []
           H1 H2 eq_refl eq_refl).
Defined.

Example ex_caller_placeholder :
  writes (trace (handleLog noFrameRuntime callerLogger (str "hi") InfoLevel []))
  = [str "timestamp=2022-07-07T12:09:10.221+05:30 level=info message=hi sc=general caller=???:0 "
     ++ [newline]].
Proof. vm_compute. reflexivity. Qed.

(** * One line per emission *)

Lemma joinSp_cons (t : gostring) (ts : list gostring) :
  ts <> [] -> joinSp (t :: ts) = t ++ [space] ++ joinSp ts.
Proof. destruct ts; [congruence|reflexivity]. Qed.






(** The mixed-type example of the specification, section 8. *)
Example ex_mixed_fields :
  writes (trace (handleLog exampleRuntime sampleLogger (str "started") InfoLevel
                   sampleFields))
  = [str "timestamp=2022-07-07T12:09:10.221+05:30 level=info message=started sc=svc count=42 ratio=3.14 name=ok"
     ++ [newline]].
Proof. vm_compute. reflexivity. Qed.

(** * Colouring *)

(** Appending text that starts with a byte below 0x80 does not change what
    the decoder returns. *)
Lemma decode_app (s t : gostring) :
  s <> [] ->
  (forall a t', t = a :: t' -> b2z a < 0x80) ->
  utf8.DecodeRuneInString (s ++ t) = utf8.DecodeRuneInString s.
Proof.
  destruct s as [|b0 s]; [congruence|]. intros _ Ht.
  pose proof (b2z_range b0) as R0.
  destruct (Z.lt_ge_cases (b2z b0) 0x80) as [Hlo|Hhi].
  { cbn [app]. now rewrite !decode_ascii. }
  assert (Ha : t = [] \/ exists a t', t = a :: t' /\ b2z a < 0x80).
  { destruct t as [|a t']; [now left|right]. exists a, t'. split; [reflexivity|].
    now apply (Ht a t'). }
  clear Ht.
  unfold utf8.DecodeRuneInString, utf8.at_.
  cbn [app length nth].
  change (S (length (s ++ t)) <? 1)%nat with false.
  change (S (length s) <? 1)%nat with false. cbv iota.
  destruct (first_rows (b2z b0) ltac:(lia))
    as [E|[[E R]|[[E R]|[[E R]|[[E R]|[[E R]|[[E R]|[E R]]]]]]]]; rewrite E.
  - reflexivity.
  - destruct s as [|b1 s]; cbn [app]; eval_row; [|reflexivity].
    destruct Ha as [->|(a & t' & -> & Ha)]; eval_row; [reflexivity|].
    split_conds; try lia; reflexivity.
  - destruct s as [|b1 [|b2 s]]; cbn [app]; eval_row; try reflexivity;
      (destruct Ha as [->|(a & t' & -> & Ha)]; eval_row; [reflexivity|]);
      try (destruct t' as [|a' t'']; eval_row);
      split_conds; try lia; reflexivity.
  - destruct s as [|b1 [|b2 s]]; cbn [app]; eval_row; try reflexivity;
      (destruct Ha as [->|(a & t' & -> & Ha)]; eval_row; [reflexivity|]);
      try (destruct t' as [|a' t'']; eval_row);
      split_conds; try lia; reflexivity.
  - destruct s as [|b1 [|b2 s]]; cbn [app]; eval_row; try reflexivity;
      (destruct Ha as [->|(a & t' & -> & Ha)]; eval_row; [reflexivity|]);
      try (destruct t' as [|a' t'']; eval_row);
      split_conds; try lia; reflexivity.
  - destruct s as [|b1 [|b2 [|b3 s]]]; cbn [app]; eval_row; try reflexivity;
      (destruct Ha as [->|(a & t' & -> & Ha)]; eval_row; [reflexivity|]);
      try (destruct t' as [|a' [|a'' t'']]; eval_row);
      split_conds; try lia; reflexivity.
  - destruct s as [|b1 [|b2 [|b3 s]]]; cbn [app]; eval_row; try reflexivity;
      (destruct Ha as [->|(a & t' & -> & Ha)]; eval_row; [reflexivity|]);
      try (destruct t' as [|a' [|a'' t'']]; eval_row);
      split_conds; try lia; reflexivity.
  - destruct s as [|b1 [|b2 [|b3 s]]]; cbn [app]; eval_row; try reflexivity;
      (destruct Ha as [->|(a & t' & -> & Ha)]; eval_row; [reflexivity|]);
      try (destruct t' as [|a' [|a'' t'']]; eval_row);
      split_conds; try lia; reflexivity.
Qed.

Lemma Runes_ascii_cons (a : byte) (s : gostring) :
  b2z a < 0x80 -> Runes (a :: s) = (b2z a, [a]) :: Runes s.
Proof.
  intros Ha. rewrite Runes_equation_2, decode_ascii by exact Ha. reflexivity.
Qed.

Lemma Runes_ascii_app (pre s : gostring) :
  asciiText pre -> Runes (pre ++ s) = map (fun a => (b2z a, [a])) pre ++ Runes s.
Proof.
  induction 1 as [|a pre Ha _ IH]; [reflexivity|].
  cbn [app map]. rewrite Runes_ascii_cons by exact Ha. now rewrite IH.
Qed.

Lemma Runes_app_ascii (s post : gostring) :
  asciiText post -> Runes (s ++ post) = Runes s ++ Runes post.
Proof.
  intros Hp. induction s as [|s Hs IH] using rune_ind.
  - rewrite Runes_equation_1. reflexivity.
  - assert (Hne : s ++ post <> []) by (destruct s; [congruence|discriminate]).
    pose proof (DecodeRuneInString_size s Hs) as Hsz.
    assert (Hd : utf8.DecodeRuneInString (s ++ post) = utf8.DecodeRuneInString s).
    { apply decode_app; [exact Hs|]. intros a t' ->. now inversion Hp. }
    rewrite (Runes_cons _ Hne), (Runes_cons _ Hs), Hd.
    rewrite firstn_app, skipn_app.
    replace (snd (utf8.DecodeRuneInString s) - length s)%nat with 0%nat by lia.
    cbn [firstn skipn]. rewrite app_nil_r, IH. reflexivity.
Qed.

(** Wrapping a text in texts of bytes below 0x80 adds their bytes as runes
    and leaves the runes of the text as they are. *)
Lemma anyRune_wrap (f : Z -> bool) (pre s post : gostring) :
  asciiText pre -> asciiText post ->
  anyRune f (pre ++ s ++ post)
  = existsb (fun a => f (b2z a)) pre || anyRune f s
    || existsb (fun a => f (b2z a)) post.
Proof.
  intros Hpre Hpost. unfold anyRune.
  rewrite Runes_ascii_app, Runes_app_ascii by assumption.
  rewrite <- (app_nil_r post) at 1. rewrite Runes_ascii_app by assumption.
  rewrite Runes_equation_1, app_nil_r, !existsb_app.
  rewrite <- orb_assoc. f_equal; [|f_equal].
  - clear. induction pre as [|a pre IH]; [reflexivity|]. cbn. now rewrite IH.
  - clear. induction post as [|a post IH]; [reflexivity|]. cbn. now rewrite IH.
Qed.

Lemma needsQuoting_keyText (color : bool) (lvl : Level) (key : gostring) :
  isSeverity lvl ->
  needsQuoting (keyText color lvl key) = needsQuoting key.
Proof.
  intros Hs. unfold needsQuoting, keyText. destruct color; [|reflexivity].
  unfold isSeverity, DebugLevel, FatalLevel in Hs.
  assert (E : lvl = 0 \/ lvl = 1 \/ lvl = 2 \/ lvl = 3 \/ lvl = 4) by lia.
  assert (Hreset : asciiText reset)
    by (repeat constructor; vm_compute; reflexivity).
  destruct E as [->|[->|[->|[->| ->]]]];
    (rewrite anyRune_wrap;
     [ change (existsb _ (colorOf _)) with false;
       change (existsb _ reset) with false;
       now rewrite orb_false_r
     | repeat constructor; vm_compute; reflexivity
     | exact Hreset ]).
Qed.

(** A key that needs no quoting is written as it is handed over: wrapped in
    the colour of the level and the reset code, or bare. *)
Lemma fieldText_clean_key (w : Runtime) (color : bool) (lvl : Level)
    (key : gostring) (v : Value) :
  isSeverity lvl ->
  needsQuoting key = false ->
  fieldText w color lvl (key, v) = keyText color lvl key ++ [equals] ++ valueText w v.
Proof.
  intros Hs Hk. unfold fieldText. cbn [fst snd].
  rewrite escapeAndWriteString_spec.
  fold (needsQuoting (keyText color lvl key)).
  rewrite needsQuoting_keyText, Hk by exact Hs. reflexivity.
Qed.

(** ** No escape byte is added *)

Lemma escFree_app (a b : gostring) : escFree a -> escFree b -> escFree (a ++ b).
Proof. unfold escFree. intros Ha Hb H. apply in_app_or in H. tauto. Qed.

Lemma escFree_cons (a : byte) (s : gostring) :
  a <> escbyte -> escFree s -> escFree (a :: s).
Proof. unfold escFree. intros Ha Hs [H|H]; [congruence|tauto]. Qed.

Lemma escFree_existsb (s : gostring) :
  existsb (Byte.eqb escbyte) s = false -> escFree s.
Proof.
  intros H Hin.
  assert (E : existsb (Byte.eqb escbyte) s = true); [|congruence].
  apply existsb_exists. exists escbyte. split; [exact Hin|].
  now apply Byte.byte_dec_lb.
Qed.

Lemma escFree_escapeASCII (b : byte) : escFree (escapeASCII b).
Proof. apply escFree_existsb. destruct b; reflexivity. Qed.

Lemma escFree_high (bs : gostring) :
  Forall (fun b => 0x80 <= b2z b) bs -> escFree bs.
Proof.
  induction 1 as [|b bs Hb _ IH]; [intros []|].
  apply escFree_cons; [|exact IH].
  intros ->. revert Hb. vm_compute. congruence.
Qed.

(** The quoted form never holds an escape byte. *)
Lemma escFree_quoted (s : gostring) : escFree (quoted isRuneError s).
Proof.
  unfold quoted.
  apply escFree_app; [apply escFree_existsb; reflexivity|].
  apply escFree_app; [|apply escFree_existsb; reflexivity].
  induction s as [|s Hs IH] using rune_ind.
  - rewrite Runes_equation_1. intros [].
  - rewrite Runes_cons by exact Hs. cbn [flat_map].
    apply escFree_app; [|exact IH].
    unfold escapeUnit, isRuneError. cbn [fst snd]. unfold utf8.RuneSelf.
    destruct (rune_shape s Hs) as [(b & Eb & Ec & Hlo)|(Hc & Hall & _)].
    + rewrite Eb, Ec. destruct (Z.ltb_spec (b2z b) 0x80); [|lia].
      cbn [flat_map]. rewrite app_nil_r. apply escFree_escapeASCII.
    + destruct (Z.ltb_spec (fst (utf8.DecodeRuneInString s)) 0x80); [lia|].
      destruct (_ =? _).
      * apply escFree_existsb. reflexivity.
      * now apply escFree_high.
Qed.

Lemma escFree_escapeAndWriteString (s : gostring) :
  escFree s -> escFree (escapeAndWriteString [] s).
Proof.
  intros Hs. rewrite escapeAndWriteString_spec.
  destruct (anyRune checkEscapingRune s); [apply escFree_quoted|exact Hs].
Qed.

Lemma escFree_valueText (w : Runtime) (v : Value) :
  escFree (valueSource w v) -> escFree (valueText w v).
Proof.
  destruct v; cbn [valueSource valueText]; intros H;
    try exact H; now apply escFree_escapeAndWriteString.
Qed.

Lemma escFree_fieldText (w : Runtime) (lvl : Level) (kv : gostring * Value) :
  escFree (fst kv) -> escFree (valueSource w (snd kv)) ->
  escFree (fieldText w false lvl kv).
Proof.
  intros Hk Hv. unfold fieldText, keyText.
  apply escFree_app; [now apply escFree_escapeAndWriteString|].
  apply escFree_cons; [discriminate|]. now apply escFree_valueText.
Qed.

Lemma escFree_joinSp (ts : list gostring) :
  Forall escFree ts -> escFree (joinSp ts).
Proof.
  induction 1 as [|t ts Ht Hts IH]; [intros []|].
  destruct ts as [|t' ts]; [exact Ht|].
  rewrite joinSp_cons by discriminate.
  apply escFree_app; [exact Ht|]. apply escFree_cons; [discriminate|exact IH].
Qed.

Lemma escFree_Level_String (lvl : Level) : escFree (Level_String lvl).
Proof.
  unfold Level_String.
  repeat match goal with |- context [if ?c then _ else _] => destruct c end;
    apply escFree_existsb; reflexivity.
Qed.

Lemma escFree_flat_map_sp (ts : list gostring) :
  Forall escFree ts -> escFree (flat_map (fun t => t ++ [space]) ts).
Proof.
  induction 1 as [|t ts Ht _ IH]; [intros []|].
  cbn [flat_map]. apply escFree_app; [|exact IH].
  apply escFree_app; [exact Ht|]. apply escFree_existsb. reflexivity.
Qed.

(** C7, as stated, fails.  With colouring disabled, a message holding a
    colour code and no structural character is copied raw, so the line holds
    an ANSI code.  With colouring enabled, a key that needs quoting is
    quoted together with its colour and reset codes: their escape bytes are
    rewritten as unicode escapes and the key is not wrapped in a colour code. *)
Lemma colour_codes_leak_or_vanish :
  enableColor (New okWriter) = false /\
  writes (trace (Info exampleRuntime (New okWriter) redMessage))
  = [str "timestamp=2022-07-07T12:09:10.221+05:30 level=info message="
     ++ redMessage ++ str " sc=general " ++ [newline]] /\
  In escbyte (str "timestamp=2022-07-07T12:09:10.221+05:30 level=info message="
              ++ redMessage ++ str " sc=general " ++ [newline]) /\
  enableColor colorLogger = true /\
  fieldText exampleRuntime (enableColor colorLogger) InfoLevel (str "a b", VInt 1)
  = [dquote] ++ str "\u001b[36ma b\u001b[0m" ++ [dquote] ++ str "=1" /\
  fieldText exampleRuntime (enableColor colorLogger) InfoLevel (str "a b", VInt 1)
  <> colorOf InfoLevel ++ str "a b" ++ reset ++ str "=1".
Proof.
  split; [reflexivity|]. split; [vm_compute; reflexivity|]. split.
  { apply in_or_app. right. left. reflexivity. }
  split; [reflexivity|]. split; [vm_compute; reflexivity|].
  vm_compute. discriminate.
Qed.

Lemma keyText_clean (color : bool) (lvl : Level) (key : gostring) :
  isSeverity lvl ->
  needsQuoting key = false ->
  escapeAndWriteString [] (keyText color lvl key) = keyText color lvl key.
Proof.
  intros Hs Hk. rewrite escapeAndWriteString_spec.
  fold (needsQuoting (keyText color lvl key)).
  now rewrite needsQuoting_keyText, Hk by exact Hs.
Qed.

(** C7 (amended): with colouring enabled, the timestamp key and the key of
    every field whose key needs no quoting are written wrapped in the
    colour code of the severity followed by the reset code, whatever the
    other keys are; the text of each value is the one written with
    colouring disabled, and the line ends with its newline.  With colouring
    disabled every key is written by the escaping rule alone and the logger
    adds no code: the line holds an escape byte only if the timestamp text,
    the message, the scope, the caller text, a key or the text of a value
    holds one. *)
Theorem colour_wraps_keys (w : Runtime) (l : Logger) (msg : gostring) (lvl : Level)
    (fields : Fields) :
  isSeverity lvl ->
  level l <= lvl ->
  let wrap := fun k => colorOf lvl ++ k ++ reset in
  let fixedValues :=
    [ (str "level", valueText w (VStringer (Level_String lvl)));
      (str "message", valueText w (VString msg));
      (scopeKey, valueText w (VString (scope l))) ]
    ++ (if enableCaller l
        then [(str "caller",
               valueText w (VString (callerText w (callerSkipFrameCount l))))]
        else []) in
  (exists keyTokens,
     Forall2 (fun kv kt => needsQuoting (fst kv) = false -> kt = wrap (fst kv))
       fields keyTokens /\
     writes (trace (handleLog w (SetColorOutput l true) msg lvl fields))
     = [ flat_map (fun t => t ++ [space])
           ((wrap tsKey ++ time_Now_Format w (tsFormat l))
            :: map (fun kv => wrap (fst kv) ++ [equals] ++ snd kv) fixedValues)
         ++ joinSp (map (fun p => fst p ++ [equals] ++ valueText w (snd (snd p)))
                      (combine keyTokens fields))
         ++ [newline] ]) /\
  writes (trace (handleLog w (SetColorOutput l false) msg lvl fields))
  = [ flat_map (fun t => t ++ [space])
        ((tsKey ++ time_Now_Format w (tsFormat l))
         :: map (fun kv => fst kv ++ [equals] ++ snd kv) fixedValues)
      ++ joinSp (map (fun kv => escapedText (fst kv) ++ [equals] ++ valueText w (snd kv))
                   fields)
      ++ [newline] ] /\
  (escFree (time_Now_Format w (tsFormat l)) ->
   escFree msg ->
   escFree (scope l) ->
   escFree (callerText w (callerSkipFrameCount l)) ->
   Forall (fun kv => escFree (fst kv) /\ escFree (valueSource w (snd kv))) fields ->
   forall p,
     In p (writes (trace (handleLog w (SetColorOutput l false) msg lvl fields))) ->
     escFree p).
Proof.
  intros Hs Hl wrap fixedValues.
  assert (Hfix : forall c k, In k [str "level"; str "message"; scopeKey; str "caller"] ->
                 forall v, fieldText w c lvl (k, v)
                           = keyText c lvl k ++ [equals] ++ valueText w v).
  { intros c k Hin v. apply fieldText_clean_key; [exact Hs|].
    destruct Hin as [<-|[<-|[<-|[<-|[]]]]]; vm_compute; reflexivity. }
  rewrite !handleLog_emits by (try left; assumption).
  unfold trace. cbn [fst]. rewrite !writes_emissionEvents.
  unfold lineOf, fixedFields, timeText.
  cbn [enableColor enableCaller tsFormat scope callerSkipFrameCount SetColorOutput].
  rewrite !Hfix by (cbn; tauto).
  split; [|split].
  - exists (map (fun kv => escapeAndWriteString [] (keyText true lvl (fst kv))) fields).
    split.
    + induction fields as [|kv fields IH]; constructor; [|exact IH].
      intros Hk. now apply keyText_clean.
    + f_equal. f_equal; [|f_equal].
      * subst fixedValues. destruct (enableCaller l); reflexivity.
      * f_equal. induction fields as [|[k v] fields IH]; [reflexivity|].
        cbn [map combine fst snd]. now rewrite IH.
  - f_equal. f_equal; [|f_equal].
    + subst fixedValues. destruct (enableCaller l); reflexivity.
    + f_equal. induction fields as [|[k v] fields IH]; [reflexivity|].
      cbn [map fst snd]. rewrite IH. unfold fieldText at 1. cbn [fst snd keyText].
      now rewrite escapeAndWriteString_escapedText.
  - intros Ht Hm Hsc Hca Hf p [<-|[]].
    apply escFree_app; [|apply escFree_app].
    + apply escFree_flat_map_sp. apply Forall_app. split.
      * repeat constructor.
        -- apply escFree_app; [apply escFree_existsb; reflexivity|exact Ht].
        -- apply escFree_app; [apply escFree_existsb; reflexivity|].
           apply escFree_cons; [discriminate|].
           apply escFree_valueText. apply escFree_Level_String.
        -- apply escFree_app; [apply escFree_existsb; reflexivity|].
           apply escFree_cons; [discriminate|]. now apply escFree_valueText.
        -- apply escFree_app; [apply escFree_existsb; reflexivity|].
           apply escFree_cons; [discriminate|]. now apply escFree_valueText.
      * destruct (enableCaller l); repeat constructor.
        apply escFree_app; [apply escFree_existsb; reflexivity|].
        apply escFree_cons; [discriminate|]. now apply escFree_valueText.
    + apply escFree_joinSp. apply Forall_map.
      eapply Forall_impl; [|exact Hf]. intros kv [H1 H2].
      now apply escFree_fieldText.
    + apply escFree_existsb. reflexivity.
Qed.

Lemma colour_wraps_keys_witness :
  (isSeverity WarnLevel /\ level (New okWriter) <= WarnLevel) /\
  (let wrap := fun k => colorOf WarnLevel ++ k ++ reset in
   let fixedValues :=
     [ (str "level", valueText exampleRuntime (VStringer (Level_String WarnLevel)));
       (str "message", valueText exampleRuntime (VString (str "slow")));
       (scopeKey, valueText exampleRuntime (VString (scope (New okWriter)))) ]
     ++ (if enableCaller (New okWriter)
         then [(str "caller",
                valueText exampleRuntime
                  (VString (callerText exampleRuntime
                              (callerSkipFrameCount (New okWriter)))))]
         else []) in
   (exists keyTokens,
      Forall2 (fun kv kt => needsQuoting (fst kv) = false -> kt = wrap (fst kv))
        mixedFields keyTokens /\
      writes (trace (handleLog exampleRuntime (SetColorOutput (New okWriter) true)
                       (str "slow") WarnLevel mixedFields))
      = [ flat_map (fun t => t ++ [space])
            ((wrap tsKey ++ time_Now_Format exampleRuntime (tsFormat (New okWriter)))
             :: map (fun kv => wrap (fst kv) ++ [equals] ++ snd kv) fixedValues)
          ++ joinSp (map (fun p => fst p ++ [equals]
                                   ++ valueText exampleRuntime (snd (snd p)))
                       (combine keyTokens mixedFields))
          ++ [newline] ]) /\
   writes (trace (handleLog exampleRuntime (SetColorOutput (New okWriter) false)
                    (str "slow") WarnLevel mixedFields))
   = [ flat_map (fun t => t ++ [space])
         ((tsKey ++ time_Now_Format exampleRuntime (tsFormat (New okWriter)))
          :: map (fun kv => fst kv ++ [equals] ++ snd kv) fixedValues)
       ++ joinSp (map (fun kv => escapedText (fst kv) ++ [equals]
                                 ++ valueText exampleRuntime (snd kv))
                    mixedFields)
       ++ [newline] ] /\
   (forall p,
      In p (writes (trace (handleLog exampleRuntime (SetColorOutput (New okWriter) false)
                             (str "slow") WarnLevel mixedFields))) ->
      escFree p)).
Proof.
  assert (H1 : isSeverity WarnLevel) by (unfold isSeverity; cbv; intuition congruence).
  assert (H2 : level (New okWriter) <= WarnLevel) by (cbv; congruence).
  split; [split; [exact H1|exact H2]|].
  destruct (colour_wraps_keys exampleRuntime (New okWriter) (str "slow") WarnLevel
              mixedFields H1 H2) as (Hon & Hoff & Hesc).
  split; [exact Hon|]. split; [exact Hoff|].
  apply Hesc; try (apply escFree_existsb; reflexivity).
  repeat constructor; apply escFree_existsb; reflexivity.
Defined.

(** The same emission with colouring on and off: the key that needs
    quoting is left to the escaping rule, the other keys are wrapped. *)
Example ex_mixed_keys_coloured :
  writes (trace (handleLog exampleRuntime (SetColorOutput (New okWriter) true)
                   (str "slow") WarnLevel mixedFields))
  = [ yellow ++ str "timestamp=" ++ reset ++ str "2022-07-07T12:09:10.221+05:30 "
      ++ yellow ++ str "level" ++ reset ++ str "=warn "
      ++ yellow ++ str "message" ++ reset ++ str "=slow "
      ++ yellow ++ str "sc" ++ reset ++ str "=general "
      ++ [dquote] ++ str "\u001b[33ma b\u001b[0m" ++ [dquote] ++ str "=1 "
      ++ yellow ++ str "ok" ++ reset ++ str "=" ++ [dquote] ++ str "x y" ++ [dquote]
      ++ [newline] ] /\
  writes (trace (handleLog exampleRuntime (SetColorOutput (New okWriter) false)
                   (str "slow") WarnLevel mixedFields))
  = [ str "timestamp=2022-07-07T12:09:10.221+05:30 level=warn message=slow sc=general "
      ++ [dquote] ++ str "a b" ++ [dquote] ++ str "=1 ok="
      ++ [dquote] ++ str "x y" ++ [dquote] ++ [newline] ].
Proof. split; vm_compute; reflexivity. Qed.

Example ex_coloured_line :
  writes (trace (handleLog exampleRuntime colorLogger (str "slow") WarnLevel cleanFields))
  = [ yellow ++ str "timestamp=" ++ reset ++ str "2022-07-07T12:09:10.221+05:30 "
      ++ yellow ++ str "level" ++ reset ++ str "=warn "
      ++ yellow ++ str "message" ++ reset ++ str "=slow "
      ++ yellow ++ str "sc" ++ reset ++ str "=general "
      ++ yellow ++ str "count" ++ reset ++ str "=42 "
      ++ yellow ++ str "name" ++ reset ++ str "=ok" ++ [newline] ].
Proof. vm_compute. reflexivity. Qed.

(** * Further properties of the escaping engine *)

(** The empty text is appended as nothing at all, not as a pair of quotes,
    so a field with an empty value ends at its [=]. *)
Theorem empty_value_is_written_bare (buf : byteBuffer) (key : gostring) (lvl : Level)
    (color sp : bool) :
  escapeAndWriteString buf [] = buf /\
  writeStringToBuf buf key [] lvl color sp
  = option_map (fun kb => kb ++ [equals] ++ sep sp) (writeKey buf key lvl color).
Proof.
  assert (E : forall b, escapeAndWriteString b [] = b).
  { intros b. rewrite escapeAndWriteString_spec. unfold anyRune.
    rewrite Runes_equation_1. cbn [existsb]. apply app_nil_r. }
  split; [apply E|].
  unfold writeStringToBuf. destruct (writeKey buf key lvl color) as [kb|]; [|reflexivity].
  cbn [option_map]. rewrite E. unfold AppendByte, sep.
  destruct sp; rewrite <- ?app_assoc; reflexivity.
Qed.

(** Writing is append-only and does not look at the buffer: what is in the
    buffer stays as a prefix, and what is appended is what would be written
    to an empty buffer. *)
Theorem writers_only_append (w : Runtime) (buf : byteBuffer) (key s : gostring)
    (v : Value) (lvl : Level) (color sp : bool) :
  writeQuotedString buf s = buf ++ writeQuotedString [] s /\
  escapeAndWriteString buf s = buf ++ escapeAndWriteString [] s /\
  writeStringToBuf buf key s lvl color sp
  = option_map (app buf) (writeStringToBuf [] key s lvl color sp) /\
  writeToBuf w buf key v lvl color sp
  = option_map (app buf) (writeToBuf w [] key v lvl color sp).
Proof.
  assert (Hk : writeKey buf key lvl color
               = option_map (app buf) (writeKey [] key lvl color)).
  { unfold writeKey. destruct color.
    - destruct (getColoredKey key lvl); [|reflexivity].
      cbn [option_map]. now rewrite escapeAndWriteString_app.
    - cbn [option_map]. now rewrite escapeAndWriteString_app. }
  split; [|split; [|split]].
  - now rewrite !writeQuotedString_spec.
  - apply escapeAndWriteString_app.
  - unfold writeStringToBuf. rewrite Hk.
    destruct (writeKey [] key lvl color) as [kb|]; [|reflexivity].
    cbn [option_map app]. unfold AppendByte. f_equal.
    rewrite (escapeAndWriteString_app ((buf ++ kb) ++ _)).
    rewrite (escapeAndWriteString_app (kb ++ _)).
    destruct sp; rewrite <- ?app_assoc; reflexivity.
  - unfold writeToBuf. rewrite Hk.
    destruct (writeKey [] key lvl color) as [kb|]; [|reflexivity].
    cbn [option_map app]. unfold AppendByte, AppendInt, AppendFloat. f_equal.
    destruct v;
      try (rewrite (escapeAndWriteString_app ((buf ++ kb) ++ _));
           rewrite (escapeAndWriteString_app (kb ++ _)));
      destruct sp; rewrite <- ?app_assoc; reflexivity.
Qed.

(** [escapeAndWriteString] quotes exactly the texts that contain ['='], a
    space, a double quote, an undecodable byte or an encoded U+FFFD; every
    other text is copied as it is. *)
Theorem quoting_decision (buf : byteBuffer) (s : gostring) :
  (needsQuoting s = true <->
   hasStructural s \/ ValidString s = false \/ hasReplacementChar s = true) /\
  escapeAndWriteString buf s
  = buf ++ (if needsQuoting s then writeQuotedString [] s else s).
Proof.
  split; [apply needsQuote_iff|].
  rewrite escapeAndWriteString_spec. fold (needsQuoting s).
  destruct (needsQuoting s); [|reflexivity].
  now rewrite writeQuotedString_spec.
Qed.

Lemma escapeASCII_printable (b : byte) :
  forallb (fun c => 0x20 <=? b2z c) (escapeASCII b) = (0x20 <=? b2z b) || true.
Proof. destruct b; reflexivity. Qed.

(** The quoted form holds no byte below 0x20: no raw newline, carriage
    return, tab or escape byte, whatever the text holds. *)
Theorem quoted_form_has_no_control_byte (s : gostring) (b : byte) :
  In b (writeQuotedString [] s) -> 0x20 <= b2z b.
Proof.
  rewrite writeQuotedString_spec. cbn [app]. unfold quoted.
  assert (Hd : 0x20 <= b2z dquote) by (vm_compute; congruence).
  rewrite !in_app_iff. intros [H|[H|H]];
    try (destruct H as [<-|[]]; exact Hd).
  revert H. induction s as [|s Hs IH] using rune_ind.
  - rewrite Runes_equation_1. intros [].
  - rewrite Runes_cons by exact Hs. cbn [flat_map]. rewrite in_app_iff.
    intros [H|H]; [|now apply IH].
    revert H. unfold escapeUnit, isRuneError. cbn [fst snd]. unfold utf8.RuneSelf.
    destruct (rune_shape s Hs) as [(b' & Eb & Ec & Hlo)|(Hc & Hall & _)].
    + rewrite Eb, Ec. destruct (Z.ltb_spec (b2z b') 0x80); [|lia].
      cbn [flat_map]. rewrite app_nil_r. intros Hin.
      pose proof (escapeASCII_printable b') as Hp.
      rewrite orb_true_r, forallb_forall in Hp.
      apply Hp in Hin. now apply Z.leb_le.
    + destruct (Z.ltb_spec (fst (utf8.DecodeRuneInString s)) 0x80); [lia|].
      destruct (_ =? _).
      * intros Hin.
        assert (Hp : forallb (fun c => 0x20 <=? b2z c) replacementEscape = true)
          by reflexivity.
        rewrite forallb_forall in Hp. apply Hp in Hin. now apply Z.leb_le.
      * intros Hin. rewrite Forall_forall in Hall. apply Hall in Hin. lia.
Qed.

Lemma escapeASCII_length (b : byte) :
  (1 <= length (escapeASCII b) <= 6)%nat.
Proof. destruct b; cbn; lia. Qed.

(** The quoted form is at least two bytes longer than the text and at most
    six times as long plus the two quotes. *)
Theorem quoted_form_length (s : gostring) :
  (length s + 2 <= length (writeQuotedString [] s) <= 6 * length s + 2)%nat.
Proof.
  rewrite writeQuotedString_spec. cbn [app]. unfold quoted.
  cbn [app length]. rewrite length_app. cbn [length].
  assert (H : (length s <= length (flat_map (escapeUnit isRuneError) (Runes s))
               <= 6 * length s)%nat); [|lia].
  induction s as [|s Hs IH] using rune_ind.
  - rewrite Runes_equation_1. cbn. lia.
  - rewrite Runes_cons by exact Hs. cbn [flat_map]. rewrite length_app.
    pose proof (DecodeRuneInString_size s Hs) as Hsz.
    assert (Hlen : length s
                   = (length (firstn (snd (utf8.DecodeRuneInString s)) s)
                      + length (skipn (snd (utf8.DecodeRuneInString s)) s))%nat)
      by (rewrite <- length_app, firstn_skipn; reflexivity).
    assert (Hu : (length (firstn (snd (utf8.DecodeRuneInString s)) s)
                  <= length (escapeUnit isRuneError
                               (fst (utf8.DecodeRuneInString s),
                                firstn (snd (utf8.DecodeRuneInString s)) s))
                  <= 6 * length (firstn (snd (utf8.DecodeRuneInString s)) s))%nat);
      [|lia].
    assert (Hl : length (firstn (snd (utf8.DecodeRuneInString s)) s)
                 = snd (utf8.DecodeRuneInString s))
      by (rewrite length_firstn; lia).
    unfold escapeUnit, isRuneError. cbn [fst snd]. unfold utf8.RuneSelf.
    destruct (rune_shape s Hs) as [(b' & Eb & Ec & Hlo)|(Hc & Hall & Hre & _)].
    + rewrite Eb, Ec. destruct (Z.ltb_spec (b2z b') 0x80); [|lia].
      cbn [flat_map length]. rewrite app_nil_r.
      pose proof (escapeASCII_length b'). lia.
    + destruct (Z.ltb_spec (fst (utf8.DecodeRuneInString s)) 0x80); [lia|].
      destruct (Z.eqb_spec (fst (utf8.DecodeRuneInString s)) utf8.RuneError) as [E|_].
      * destruct (Hre E) as [H1|H3].
        -- rewrite H1. cbn. lia.
        -- rewrite H3. cbn. lia.
      * lia.
Qed.

Lemma quoted_form_has_no_control_byte_witness :
  In backslash (writeQuotedString [] twoLineMessage) /\ 0x20 <= b2z backslash.
Proof.
  assert (H : In backslash (writeQuotedString [] twoLineMessage)).
  { vm_compute. right. right. left. reflexivity. }
  split; [exact H|].
  exact (quoted_form_has_no_control_byte twoLineMessage backslash H).
Defined.

(** A decodable rune is decoded from its own bytes alone: what follows them
    does not matter. *)
Lemma decode_prefix (s t : gostring) (c : Z) (n : nat) :
  utf8.DecodeRuneInString s = (c, n) ->
  s <> [] ->
  (c, n) <> (utf8.RuneError, 1%nat) ->
  utf8.DecodeRuneInString (firstn n s ++ t) = (c, n).
Proof.
  destruct s as [|b0 s]; [congruence|]. intros H _ Hv.
  pose proof (b2z_range b0) as R0.
  destruct (Z.lt_ge_cases (b2z b0) 0x80) as [Hlo|Hhi].
  { rewrite decode_ascii in H by exact Hlo. injection H as <- <-.
    cbn [firstn app]. now apply decode_ascii. }
  revert H. unfold utf8.DecodeRuneInString at 1. unfold utf8.at_.
  cbn [length nth]. change (S (length s) <? 1)%nat with false. cbv iota.
  destruct (first_rows (b2z b0) ltac:(lia))
    as [E|[[E R]|[[E R]|[[E R]|[[E R]|[[E R]|[[E R]|[E R]]]]]]]]; rewrite E.
  - vm_compute (utf8.as_ <=? utf8.xx). vm_compute (utf8.xx =? utf8.xx).
    cbv iota. intros Hdec. congruence.
  - destruct s as [|b1 s]; eval_row; try congruence.
    split_conds; try congruence. intros Hdec. injection Hdec as <- <-.
    cbn [firstn app]. unfold utf8.DecodeRuneInString, utf8.at_.
    cbn [length nth]. rewrite E. eval_row. split_conds; try lia. reflexivity.
  - destruct s as [|b1 [|b2 s]]; eval_row; try congruence;
      split_conds; try congruence. intros Hdec. injection Hdec as <- <-.
    cbn [firstn app]. unfold utf8.DecodeRuneInString, utf8.at_.
    cbn [length nth]. rewrite E. eval_row. split_conds; try lia. reflexivity.
  - destruct s as [|b1 [|b2 s]]; eval_row; try congruence;
      split_conds; try congruence. intros Hdec. injection Hdec as <- <-.
    cbn [firstn app]. unfold utf8.DecodeRuneInString, utf8.at_.
    cbn [length nth]. rewrite E. eval_row. split_conds; try lia. reflexivity.
  - destruct s as [|b1 [|b2 s]]; eval_row; try congruence;
      split_conds; try congruence. intros Hdec. injection Hdec as <- <-.
    cbn [firstn app]. unfold utf8.DecodeRuneInString, utf8.at_.
    cbn [length nth]. rewrite E. eval_row. split_conds; try lia. reflexivity.
  - destruct s as [|b1 [|b2 [|b3 s]]]; eval_row; try congruence;
      split_conds; try congruence. intros Hdec. injection Hdec as <- <-.
    cbn [firstn app]. unfold utf8.DecodeRuneInString, utf8.at_.
    cbn [length nth]. rewrite E. eval_row. split_conds; try lia. reflexivity.
  - destruct s as [|b1 [|b2 [|b3 s]]]; eval_row; try congruence;
      split_conds; try congruence. intros Hdec. injection Hdec as <- <-.
    cbn [firstn app]. unfold utf8.DecodeRuneInString, utf8.at_.
    cbn [length nth]. rewrite E. eval_row. split_conds; try lia. reflexivity.
  - destruct s as [|b1 [|b2 [|b3 s]]]; eval_row; try congruence;
      split_conds; try congruence. intros Hdec. injection Hdec as <- <-.
    cbn [firstn app]. unfold utf8.DecodeRuneInString, utf8.at_.
    cbn [length nth]. rewrite E. eval_row. split_conds; try lia. reflexivity.
Qed.

Lemma Runes_unit_app (s t : gostring) :
  s <> [] ->
  utf8.DecodeRuneInString s <> (utf8.RuneError, 1%nat) ->
  Runes (firstn (snd (utf8.DecodeRuneInString s)) s ++ t)
  = (fst (utf8.DecodeRuneInString s), firstn (snd (utf8.DecodeRuneInString s)) s)
    :: Runes t.
Proof.
  intros Hs Hv.
  pose proof (DecodeRuneInString_size s Hs) as Hsz.
  destruct (utf8.DecodeRuneInString s) as [c n] eqn:Hd. cbn [fst snd] in *.
  assert (Hl : length (firstn n s) = n) by (rewrite length_firstn; lia).
  assert (Hne : firstn n s ++ t <> []).
  { intros E. apply (f_equal (@length byte)) in E.
    rewrite length_app, Hl in E. cbn in E. lia. }
  rewrite (Runes_cons _ Hne), (decode_prefix s t c n Hd Hs Hv). cbn [fst snd].
  rewrite firstn_app, skipn_app, Hl, Nat.sub_diag. cbn [firstn skipn].
  rewrite app_nil_r, (firstn_all2 (firstn n s)) by lia.
  rewrite (skipn_all2 (firstn n s)) by lia. reflexivity.
Qed.

Lemma asciiText_escapeASCII (b : byte) : b2z b < 0x80 -> asciiText (escapeASCII b).
Proof.
  intros Hb. apply Forall_forall. intros a Ha.
  assert (Hp : forallb (fun c => b2z c <? 0x80) (escapeASCII b) = true).
  { revert Hb. destruct b; try reflexivity; vm_compute; congruence. }
  rewrite forallb_forall in Hp. apply Hp in Ha. now apply Z.ltb_lt.
Qed.

Lemma noRuneError_ascii_app (pre rest : gostring) :
  asciiText pre ->
  existsb isRuneError (Runes (pre ++ rest)) = existsb isRuneError (Runes rest).
Proof.
  intros Hp. rewrite Runes_ascii_app by exact Hp. rewrite existsb_app.
  match goal with
  | |- ?x || _ = _ => assert (E : x = false)
  end.
  { induction Hp as [|a pre Ha _ IH]; [reflexivity|].
    cbn [map existsb]. rewrite IH. unfold isRuneError. cbn [fst].
    destruct (Z.eqb_spec (b2z a) utf8.RuneError) as [E|_];
      [unfold utf8.RuneError in E; lia | reflexivity]. }
  now rewrite E.
Qed.

Lemma quoted_body_runes (s tail : gostring) :
  existsb isRuneError (Runes tail) = false ->
  existsb isRuneError (Runes (flat_map (escapeUnit isRuneError) (Runes s) ++ tail))
  = false.
Proof.
  intros Ht. induction s as [|s Hs IH] using rune_ind.
  - rewrite Runes_equation_1. exact Ht.
  - rewrite (Runes_cons s Hs). cbn [flat_map]. rewrite <- app_assoc.
    unfold escapeUnit at 1. unfold isRuneError at 2. cbn [fst snd].
    unfold utf8.RuneSelf.
    destruct (rune_shape s Hs) as [(b' & Eb & Ec & Hlo)|(Hc & Hall & Hre & H1)].
    + rewrite Eb, Ec. destruct (Z.ltb_spec (b2z b') 0x80); [|lia].
      cbn [flat_map]. rewrite app_nil_r.
      rewrite noRuneError_ascii_app by now apply asciiText_escapeASCII.
      exact IH.
    + destruct (Z.ltb_spec (fst (utf8.DecodeRuneInString s)) 0x80); [lia|].
      destruct (Z.eqb_spec (fst (utf8.DecodeRuneInString s)) utf8.RuneError) as [E|E].
      * rewrite noRuneError_ascii_app
          by (repeat constructor; vm_compute; reflexivity).
        exact IH.
      * rewrite Runes_unit_app; [|exact Hs|].
        -- cbn [existsb]. unfold isRuneError at 1. cbn [fst].
           destruct (Z.eqb_spec (fst (utf8.DecodeRuneInString s)) utf8.RuneError);
             [contradiction|]. exact IH.
        -- intros Hd. apply E. now rewrite Hd.
Qed.

(** Whatever bytes the text holds, its quoted form is valid UTF-8 and holds
    no U+FFFD: undecodable bytes leave only their escape behind. *)
Theorem quoted_form_is_valid_utf8 (s : gostring) :
  ValidString (writeQuotedString [] s) = true /\
  hasReplacementChar (writeQuotedString [] s) = false.
Proof.
  assert (H : anyRune (fun c => c =? utf8.RuneError) (writeQuotedString [] s) = false).
  { rewrite writeQuotedString_spec. cbn [app]. unfold quoted, anyRune.
    change (existsb (fun u => fst u =? utf8.RuneError))
      with (existsb isRuneError).
    rewrite noRuneError_ascii_app by (repeat constructor; vm_compute; reflexivity).
    apply quoted_body_runes. reflexivity. }
  rewrite anyRune_RuneError in H. apply orb_false_iff in H as [Hv Hr].
  split; [now apply negb_false_iff|exact Hr].
Qed.

Lemma readValue_escape (s : gostring) :
  readValue (escapeAndWriteString [] s) = Some (toValid s).
Proof.
  rewrite escapeAndWriteString_spec. cbn [app].
  destruct (anyRune checkEscapingRune s) eqn:E.
  - unfold quoted. cbn [app readValue]. change (Byte.eqb dquote dquote) with true.
    cbv iota. apply (unquote_quoted s).
  - assert (Hn : ~ (hasStructural s \/ ValidString s = false
                    \/ hasReplacementChar s = true)).
    { intros Hq. apply needsQuote_iff in Hq. congruence. }
    assert (Hv : ValidString s = true)
      by (destruct (ValidString s); [reflexivity|tauto]).
    rewrite toValid_valid by exact Hv.
    destruct s as [|b t]; [reflexivity|]. cbn [readValue].
    destruct (Byte.eqb b dquote) eqn:Eb; [|reflexivity].
    apply Byte.byte_dec_bl in Eb. subst b.
    exfalso. apply Hn. left. right. left. left. reflexivity.
Qed.

(** A consumer that unquotes the tokens starting with a double quote and
    takes the others as they are reads back the text with its undecodable
    bytes replaced, that is the text itself when it is valid UTF-8; two
    valid texts are therefore never written as the same token. *)
Theorem value_token_reads_back (s1 s2 : gostring) :
  readValue (escapeAndWriteString [] s1) = Some (toValid s1) /\
  (ValidString s1 = true -> readValue (escapeAndWriteString [] s1) = Some s1) /\
  (ValidString s1 = true -> ValidString s2 = true ->
   escapeAndWriteString [] s1 = escapeAndWriteString [] s2 -> s1 = s2).
Proof.
  split; [apply readValue_escape|split].
  - intros Hv. rewrite readValue_escape. now rewrite toValid_valid.
  - intros H1 H2 E. apply (f_equal readValue) in E.
    rewrite !readValue_escape, !toValid_valid in E by assumption. congruence.
Qed.

(** A token written without quotes holds no space, no ['='] and no double
    quote, so it ends at the next space of the line. *)
Theorem bare_token_has_no_separator (s : gostring) :
  needsQuoting s = false ->
  escapeAndWriteString [] s = s /\
  ~ In space s /\ ~ In equals s /\ ~ In dquote s.
Proof.
  intros Hq. split.
  - rewrite escapeAndWriteString_spec. fold (needsQuoting s). now rewrite Hq.
  - assert (Hn : ~ hasStructural s).
    { intros Hs. assert (E : needsQuoting s = true)
        by (apply needsQuote_iff; now left). congruence. }
    unfold hasStructural in Hn. tauto.
Qed.

Lemma bare_token_has_no_separator_witness :
  needsQuoting (str "svc") = false /\
  (escapeAndWriteString [] (str "svc") = str "svc" /\
   ~ In space (str "svc") /\ ~ In equals (str "svc") /\ ~ In dquote (str "svc")).
Proof.
  split; [reflexivity|]. exact (bare_token_has_no_separator (str "svc") eq_refl).
Defined.

(** * Further properties of the logger *)

Lemma getColoredKey_out_of_range (k : gostring) (lvl : Level) :
  lvl < 0 \/ 4 < lvl -> getColoredKey k lvl = None.
Proof.
  intros H. unfold getColoredKey.
  destruct (Z.ltb_spec lvl 0); [reflexivity|].
  assert (Hn : nth_error colorLvlMap (Z.to_nat lvl) = None)
    by (apply nth_error_None; cbn; lia).
  now rewrite Hn.
Qed.

(** [getColoredKey] indexes an array of five colours: it panics exactly for
    a level below 0 or above 4, and otherwise wraps the key in the colour of
    the level and the reset code; the colours of error and fatal are the
    same, the others differ. *)
Theorem colour_index_bounds (k : gostring) (lvl : Level) :
  (getColoredKey k lvl = None <-> lvl < 0 \/ 4 < lvl) /\
  (getColoredKey k lvl <> None <->
   getColoredKey k lvl = Some (colorOf lvl ++ k ++ reset)) /\
  colorOf ErrorLevel = colorOf FatalLevel /\
  NoDup [colorOf DebugLevel; colorOf InfoLevel; colorOf WarnLevel; colorOf ErrorLevel].
Proof.
  assert (Hcol : colorOf ErrorLevel = colorOf FatalLevel /\
                 NoDup [colorOf DebugLevel; colorOf InfoLevel; colorOf WarnLevel;
                        colorOf ErrorLevel]).
  { split; [reflexivity|].
    repeat constructor; cbn [In]; vm_compute; intuition discriminate. }
  destruct (Z.lt_ge_cases lvl 0) as [Hneg|Hpos];
    [|destruct (Z.le_gt_cases lvl 4) as [Hle|Hgt]].
  - rewrite getColoredKey_out_of_range by (left; exact Hneg).
    split; [|split; [|exact Hcol]]; split; try congruence; intros; tauto.
  - rewrite getColoredKey_severity
      by (unfold isSeverity, DebugLevel, FatalLevel; lia).
    split; [|split; [|exact Hcol]]; split; try congruence; intros; lia.
  - rewrite getColoredKey_out_of_range by (right; exact Hgt).
    split; [|split; [|exact Hcol]]; split; try congruence; intros; tauto.
Qed.

(** A call that is not filtered takes a buffer from the pool before anything
    else. *)
Lemma handleLog_starts_with_pool_get (w : Runtime) (l : Logger) (msg : gostring)
    (lvl : Level) (fields : Fields) :
  level l <= lvl ->
  exists es o, handleLog w l msg lvl fields = (EvPoolGet :: es, o).
Proof.
  intros Hl. unfold handleLog. destruct (Z.ltb_spec lvl (level l)); [lia|].
  unfold bind at 1, emit.
  match goal with |- context [let '(es', o) := ?k in _] => destruct k as [es o] end.
  exists es, o. reflexivity.
Qed.

(** With colouring on, a call at a level outside the five severities that
    passes the filter panics on the colour index right after taking the
    buffer: the clock is not read, nothing is written and the buffer is not
    put back. *)
Theorem out_of_range_level_panics (w : Runtime) (l : Logger) (msg : gostring)
    (lvl : Level) (fields : Fields) :
  enableColor l = true ->
  lvl < 0 \/ 4 < lvl ->
  level l <= lvl ->
  handleLog w l msg lvl fields = ([EvPoolGet], Panicked).
Proof.
  intros Hc Hr Hl. unfold handleLog.
  destruct (Z.ltb_spec lvl (level l)); [lia|].
  unfold writeTimeToBuf. rewrite Hc.
  rewrite getColoredKey_out_of_range by exact Hr. reflexivity.
Qed.

Lemma out_of_range_level_panics_witness :
  (enableColor colorLogger = true /\
   (unknownLevel < 0 \/ 4 < unknownLevel) /\
   level colorLogger <= unknownLevel) /\
  handleLog exampleRuntime colorLogger (str "x") unknownLevel [] = ([EvPoolGet], Panicked).
Proof.
  assert (H2 : unknownLevel < 0 \/ 4 < unknownLevel) by (right; reflexivity).
  assert (H3 : level colorLogger <= unknownLevel) by (cbv; congruence).
  split; [split; [reflexivity|split; [exact H2|exact H3]]|].
  exact (out_of_range_level_panics exampleRuntime colorLogger (str "x") unknownLevel []
           eq_refl H2 H3).
Defined.

(** With colouring on, the key is coloured first and escaped afterwards: the
    coloured key is quoted exactly when the bare key needs quoting, and then
    the colour and reset codes are inside the quotes with their escape
    bytes rewritten, so the written key holds no escape byte at all. *)
Theorem coloured_key_is_quoted_whole (buf : byteBuffer) (key : gostring) (lvl : Level) :
  isSeverity lvl ->
  writeKey buf key lvl true
  = Some (buf ++ (if needsQuoting key
                  then writeQuotedString [] (colorOf lvl ++ key ++ reset)
                  else colorOf lvl ++ key ++ reset)) /\
  (needsQuoting key = true ->
   escFree (writeQuotedString [] (colorOf lvl ++ key ++ reset))).
Proof.
  intros Hs. split.
  - rewrite writeKey_text by (left; exact Hs). f_equal. f_equal.
    rewrite escapeAndWriteString_spec.
    fold (needsQuoting (keyText true lvl key)).
    rewrite needsQuoting_keyText by exact Hs. unfold keyText.
    destruct (needsQuoting key); [|reflexivity].
    now rewrite writeQuotedString_spec.
  - intros _. rewrite writeQuotedString_spec. apply escFree_quoted.
Qed.

Lemma coloured_key_is_quoted_whole_witness :
  isSeverity InfoLevel /\
  (writeKey [] (str "a b") InfoLevel true
   = Some ([] ++ (if needsQuoting (str "a b")
                  then writeQuotedString [] (colorOf InfoLevel ++ str "a b" ++ reset)
                  else colorOf InfoLevel ++ str "a b" ++ reset)) /\
   (needsQuoting (str "a b") = true ->
    escFree (writeQuotedString [] (colorOf InfoLevel ++ str "a b" ++ reset)))).
Proof.
  assert (H : isSeverity InfoLevel) by (unfold isSeverity; cbv; intuition congruence).
  split; [exact H|].
  exact (coloured_key_is_quoted_whole [] (str "a b") InfoLevel H).
Defined.

Lemma severity_cases (lvl : Level) :
  isSeverity lvl ->
  lvl = DebugLevel \/ lvl = InfoLevel \/ lvl = WarnLevel \/ lvl = ErrorLevel
  \/ lvl = FatalLevel.
Proof. unfold isSeverity, DebugLevel, InfoLevel, WarnLevel, ErrorLevel, FatalLevel. lia. Qed.

(** The five severities have five different names, none of which needs
    quoting; every other level is named [invalid lvl], which is quoted. *)
Theorem level_names (w : Runtime) (a b : Level) :
  (isSeverity a -> isSeverity b -> Level_String a = Level_String b -> a = b) /\
  (isSeverity a -> valueText w (VStringer (Level_String a)) = Level_String a) /\
  (~ isSeverity a ->
   valueText w (VStringer (Level_String a)) = [dquote] ++ str "invalid lvl" ++ [dquote]).
Proof.
  split; [|split].
  - intros Ha Hb.
    destruct (severity_cases a Ha) as [->|[->|[->|[->| ->]]]];
      destruct (severity_cases b Hb) as [->|[->|[->|[->| ->]]]];
      vm_compute; congruence.
  - intros Ha.
    destruct (severity_cases a Ha) as [->|[->|[->|[->| ->]]]];
      vm_compute; reflexivity.
  - intros Ha.
    assert (E : Level_String a = str "invalid lvl").
    { unfold Level_String, isSeverity, DebugLevel, InfoLevel, WarnLevel,
        ErrorLevel, FatalLevel in *.
      repeat match goal with
      | |- context [if ?x =? ?y then _ else _] => destruct (Z.eqb_spec x y)
      end; try lia; reflexivity. }
    cbn [valueText]. rewrite E. vm_compute. reflexivity.
Qed.

(** Every call that runs to its end uses the pool in balance: it takes a
    buffer, reads the clock, writes, resets and puts the buffer back once
    each when it passes the filter, and does none of these when it is
    filtered; so there is never more than one write per call. *)
Theorem pool_is_balanced (w : Runtime) (l : Logger) (msg : gostring) (lvl : Level)
    (fields : Fields) :
  isSeverity lvl \/ enableColor l = false ->
  let t := trace (handleLog w l msg lvl fields) in
  let n := if lvl <? level l then 0%nat else 1%nat in
  countEvent isPoolGet t = n /\
  countEvent isTimeNow t = n /\
  countEvent isWrite t = n /\
  countEvent isBufReset t = n /\
  countEvent isPoolPut t = n /\
  exists es, t = es ++ (if lvl <? level l then [] else [EvBufReset; EvPoolPut]).
Proof.
  intros Hs t n. subst t n. rewrite handleLog_run by exact Hs.
  unfold trace. cbn [fst].
  destruct (lvl <? level l).
  - repeat split. exists []. reflexivity.
  - unfold emissionEvents.
    repeat split;
      try (destruct (enableCaller l), (out l (lineOf w l msg lvl fields));
           reflexivity).
    eexists. rewrite !app_assoc. reflexivity.
Qed.

Lemma pool_is_balanced_witness :
  (isSeverity InfoLevel \/ enableColor (New failingWriter) = false) /\
  (let t := trace (handleLog exampleRuntime (New failingWriter) (str "x") InfoLevel []) in
   let n := if InfoLevel <? level (New failingWriter) then 0%nat else 1%nat in
   countEvent isPoolGet t = n /\
   countEvent isTimeNow t = n /\
   countEvent isWrite t = n /\
   countEvent isBufReset t = n /\
   countEvent isPoolPut t = n /\
   exists es, t = es ++ (if InfoLevel <? level (New failingWriter)
                         then [] else [EvBufReset; EvPoolPut])).
Proof.
  assert (H : isSeverity InfoLevel \/ enableColor (New failingWriter) = false)
    by (right; reflexivity).
  split; [exact H|].
  exact (pool_is_balanced exampleRuntime (New failingWriter) (str "x") InfoLevel [] H).
Defined.

(** The stack is walked exactly when the call passes the filter and caller
    capture is enabled, once, with the configured number of frames to skip. *)
Theorem stack_walk_only_when_enabled (w : Runtime) (l : Logger) (msg : gostring)
    (lvl : Level) (fields : Fields) :
  isSeverity lvl \/ enableColor l = false ->
  filter isRuntimeCaller (trace (handleLog w l msg lvl fields))
  = if negb (lvl <? level l) && enableCaller l
    then [EvRuntimeCaller (callerSkipFrameCount l)] else [].
Proof.
  intros Hs. rewrite handleLog_run by exact Hs. unfold trace. cbn [fst].
  destruct (lvl <? level l); [reflexivity|].
  unfold emissionEvents.
  destruct (enableCaller l), (out l (lineOf w l msg lvl fields)); reflexivity.
Qed.

Lemma stack_walk_only_when_enabled_witness :
  (isSeverity InfoLevel \/ enableColor callerLogger = false) /\
  filter isRuntimeCaller
    (trace (handleLog exampleRuntime callerLogger (str "x") InfoLevel []))
  = if negb (InfoLevel <? level callerLogger) && enableCaller callerLogger
    then [EvRuntimeCaller (callerSkipFrameCount callerLogger)] else [].
Proof.
  assert (H : isSeverity InfoLevel \/ enableColor callerLogger = false)
    by (right; reflexivity).
  split; [exact H|].
  exact (stack_walk_only_when_enabled exampleRuntime callerLogger (str "x") InfoLevel [] H).
Defined.

(** With no caller fields, as in [Debug], [Info], [Warn], [Error] and
    [Fatal], the line ends with a space before its newline: every fixed
    field is written with its separator. *)
Theorem no_fields_line_ends_with_space (w : Runtime) (l : Logger) (msg : gostring)
    (lvl : Level) :
  isSeverity lvl \/ enableColor l = false ->
  level l <= lvl ->
  exists body,
    writes (trace (handleLog w l msg lvl [])) = [body ++ [space; newline]].
Proof.
  intros Hs Hl. rewrite handleLog_emits by assumption.
  unfold trace. cbn [fst]. rewrite writes_emissionEvents.
  unfold lineOf. cbn [map joinSp app].
  assert (exists ts t, fixedFields w l msg lvl = ts ++ [t]) as (ts & t & E).
  { unfold fixedFields. destruct (enableCaller l).
    - eexists [_; _; _; _], _. reflexivity.
    - eexists [_; _; _], _. reflexivity. }
  rewrite E, flat_map_app. cbn [flat_map]. rewrite app_nil_r.
  exists (flat_map (fun t => t ++ [space]) ts ++ t).
  f_equal. rewrite <- !app_assoc. reflexivity.
Qed.

Lemma no_fields_line_ends_with_space_witness :
  ((isSeverity WarnLevel \/ enableColor (New okWriter) = false) /\
   level (New okWriter) <= WarnLevel) /\
  exists body,
    writes (trace (handleLog exampleRuntime (New okWriter) (str "x") WarnLevel []))
    = [body ++ [space; newline]].
Proof.
  assert (H1 : isSeverity WarnLevel \/ enableColor (New okWriter) = false)
    by (right; reflexivity).
  assert (H2 : level (New okWriter) <= WarnLevel) by (cbv; congruence).
  split; [split; [exact H1|exact H2]|].
  exact (no_fields_line_ends_with_space exampleRuntime (New okWriter) (str "x")
           WarnLevel H1 H2).
Defined.

(** [SetLevel] changes the filter and nothing else: below the new threshold
    a call does nothing, and a call that passes both the old and the new
    threshold writes the same bytes. *)
Theorem SetLevel_changes_only_the_filter (w : Runtime) (l : Logger) (t : Level)
    (msg : gostring) (lvl : Level) (fields : Fields) :
  isSeverity lvl \/ enableColor l = false ->
  (lvl < t -> handleLog w (SetLevel l t) msg lvl fields = ret tt) /\
  (t <= lvl ->
   writes (trace (handleLog w (SetLevel l t) msg lvl fields))
   = [lineOf w l msg lvl fields]) /\
  (t <= lvl -> level l <= lvl ->
   writes (trace (handleLog w (SetLevel l t) msg lvl fields))
   = writes (trace (handleLog w l msg lvl fields))).
Proof.
  intros Hs.
  assert (Hs' : isSeverity lvl \/ enableColor (SetLevel l t) = false) by exact Hs.
  assert (E : forall Ht : t <= lvl,
             writes (trace (handleLog w (SetLevel l t) msg lvl fields))
             = [lineOf w l msg lvl fields]).
  { intros Ht. rewrite handleLog_emits by assumption.
    unfold trace. cbn [fst]. now rewrite writes_emissionEvents. }
  split; [|split].
  - intros Ht. now apply handleLog_filtered.
  - exact E.
  - intros Ht Hl. rewrite (E Ht), (handleLog_emits w l) by assumption.
    unfold trace. cbn [fst]. now rewrite writes_emissionEvents.
Qed.

Lemma SetLevel_changes_only_the_filter_witness :
  (isSeverity DebugLevel \/ enableColor (New okWriter) = false) /\
  ((DebugLevel < DebugLevel ->
    handleLog exampleRuntime (SetLevel (New okWriter) DebugLevel) (str "x") DebugLevel []
    = ret tt) /\
   (DebugLevel <= DebugLevel ->
    writes (trace (handleLog exampleRuntime (SetLevel (New okWriter) DebugLevel)
                     (str "x") DebugLevel []))
    = [lineOf exampleRuntime (New okWriter) (str "x") DebugLevel []]) /\
   (DebugLevel <= DebugLevel -> level (New okWriter) <= DebugLevel ->
    writes (trace (handleLog exampleRuntime (SetLevel (New okWriter) DebugLevel)
                     (str "x") DebugLevel []))
    = writes (trace (handleLog exampleRuntime (New okWriter) (str "x") DebugLevel [])))).
Proof.
  assert (H : isSeverity DebugLevel \/ enableColor (New okWriter) = false)
    by (right; reflexivity).
  split; [exact H|].
  exact (SetLevel_changes_only_the_filter exampleRuntime (New okWriter) DebugLevel
           (str "x") DebugLevel [] H).
Defined.

(** [SetWriter] changes where the line goes and whose error is reported,
    not the line: the same bytes are handed to the new writer, and the
    diagnostic is printed exactly when the new writer returns an error. *)
Theorem SetWriter_keeps_the_line (w : Runtime) (l : Logger) (o : Writer)
    (msg : gostring) (lvl : Level) (fields : Fields) :
  isSeverity lvl \/ enableColor l = false ->
  level l <= lvl ->
  writes (trace (handleLog w (SetWriter l o) msg lvl fields))
  = writes (trace (handleLog w l msg lvl fields)) /\
  filter (fun e => match e with EvStdlogPrintf _ => true | _ => false end)
    (trace (handleLog w (SetWriter l o) msg lvl fields))
  = match o (lineOf w l msg lvl fields) with
    | Some err => [EvStdlogPrintf (str "error logging: " ++ err)]
    | None => []
    end.
Proof.
  intros Hs Hl.
  assert (Hs' : isSeverity lvl \/ enableColor (SetWriter l o) = false) by exact Hs.
  assert (Hl' : level (SetWriter l o) <= lvl) by exact Hl.
  rewrite (handleLog_emits w (SetWriter l o)), (handleLog_emits w l) by assumption.
  unfold trace. cbn [fst]. rewrite !writes_emissionEvents. split; [reflexivity|].
  unfold emissionEvents.
  change (lineOf w (SetWriter l o) msg lvl fields) with (lineOf w l msg lvl fields).
  change (out (SetWriter l o)) with o.
  change (enableCaller (SetWriter l o)) with (enableCaller l).
  destruct (enableCaller l), (o (lineOf w l msg lvl fields)); reflexivity.
Qed.

Lemma SetWriter_keeps_the_line_witness :
  ((isSeverity InfoLevel \/ enableColor (New okWriter) = false) /\
   level (New okWriter) <= InfoLevel) /\
  (writes (trace (handleLog exampleRuntime (SetWriter (New okWriter) failingWriter)
                    (str "x") InfoLevel []))
   = writes (trace (handleLog exampleRuntime (New okWriter) (str "x") InfoLevel [])) /\
   filter (fun e => match e with EvStdlogPrintf _ => true | _ => false end)
     (trace (handleLog exampleRuntime (SetWriter (New okWriter) failingWriter)
               (str "x") InfoLevel []))
   = match failingWriter (lineOf exampleRuntime (New okWriter) (str "x") InfoLevel []) with
     | Some err => [EvStdlogPrintf (str "error logging: " ++ err)]
     | None => []
     end).
Proof.
  assert (H1 : isSeverity InfoLevel \/ enableColor (New okWriter) = false)
    by (right; reflexivity).
  assert (H2 : level (New okWriter) <= InfoLevel) by (cbv; congruence).
  split; [split; [exact H1|exact H2]|].
  exact (SetWriter_keeps_the_line exampleRuntime (New okWriter) failingWriter
           (str "x") InfoLevel [] H1 H2).
Defined.

Lemma Level_String_bare (w : Runtime) (lvl : Level) :
  isSeverity lvl -> valueText w (VStringer (Level_String lvl)) = Level_String lvl.
Proof.
  intros Hs.
  destruct (severity_cases lvl Hs) as [->|[->|[->|[->| ->]]]]; vm_compute; reflexivity.
Qed.

(** The wire format without colour and caller, after [SetTimestampFormat]
    and [SetScope]: the timestamp in the format set, the level name, the
    escaped message, the escaped scope set, then the caller's fields, each
    key and each string value escaped. *)
Theorem plain_wire_format (w : Runtime) (l : Logger) (f sc msg : gostring)
    (lvl : Level) (fields : Fields) :
  isSeverity lvl ->
  enableColor l = false ->
  enableCaller l = false ->
  level l <= lvl ->
  writes (trace (handleLog w (SetScope (SetTimestampFormat l f) sc) msg lvl fields))
  = [ str "timestamp=" ++ time_Now_Format w f
      ++ str " level=" ++ Level_String lvl
      ++ str " message=" ++ escapeAndWriteString [] msg
      ++ str " sc=" ++ escapeAndWriteString [] sc ++ [space]
      ++ joinSp (map (fun kv => escapeAndWriteString [] (fst kv) ++ [equals]
                                ++ valueText w (snd kv)) fields)
      ++ [newline] ].
Proof.
  intros Hs Hc Hcal Hl.
  rewrite handleLog_emits by (try left; assumption).
  unfold trace. cbn [fst]. rewrite writes_emissionEvents. f_equal.
  unfold lineOf, fixedFields, timeText, fieldText.
  cbn [enableColor enableCaller tsFormat scope SetScope SetTimestampFormat fst snd].
  rewrite Hc, Hcal. unfold keyText. cbn [app flat_map].
  rewrite Level_String_bare by exact Hs. cbn [valueText].
  replace (escapeAndWriteString [] (str "level")) with (str "level")
    by (vm_compute; reflexivity).
  replace (escapeAndWriteString [] (str "message")) with (str "message")
    by (vm_compute; reflexivity).
  replace (escapeAndWriteString [] scopeKey) with (str "sc")
    by (vm_compute; reflexivity).
  unfold tsKey. rewrite <- !app_assoc. cbn [app str String.list_byte_of_string].
  reflexivity.
Qed.

Lemma plain_wire_format_witness :
  (isSeverity InfoLevel /\ enableColor (New okWriter) = false /\
   enableCaller (New okWriter) = false /\ level (New okWriter) <= InfoLevel) /\
  writes (trace (handleLog exampleRuntime
                   (SetScope (SetTimestampFormat (New okWriter) (str "15:04")) (str "svc"))
                   (str "started") InfoLevel sampleFields))
  = [ str "timestamp=" ++ time_Now_Format exampleRuntime (str "15:04")
      ++ str " level=" ++ Level_String InfoLevel
      ++ str " message=" ++ escapeAndWriteString [] (str "started")
      ++ str " sc=" ++ escapeAndWriteString [] (str "svc") ++ [space]
      ++ joinSp (map (fun kv => escapeAndWriteString [] (fst kv) ++ [equals]
                                ++ valueText exampleRuntime (snd kv)) sampleFields)
      ++ [newline] ].
Proof.
  assert (H1 : isSeverity InfoLevel) by (unfold isSeverity; cbv; intuition congruence).
  assert (H4 : level (New okWriter) <= InfoLevel) by (cbv; congruence).
  split; [split; [exact H1|split; [reflexivity|split; [reflexivity|exact H4]]]|].
  exact (plain_wire_format exampleRuntime (New okWriter) (str "15:04") (str "svc")
           (str "started") InfoLevel sampleFields H1 eq_refl eq_refl H4).
Defined.

(** A logger made by [New] drops [Debug] calls and writes [Info], [Warn]
    and [Error] calls as one line each, with the default timestamp format,
    the scope [general], no colour and no caller. *)
Theorem default_logger (w : Runtime) (o : Writer) (msg : gostring) :
  Debug w (New o) msg = ret tt /\
  writes (trace (Info w (New o) msg))
  = [ str "timestamp=" ++ time_Now_Format w defaultTSFormat
      ++ str " level=info message=" ++ escapeAndWriteString [] msg
      ++ str " sc=general " ++ [newline] ] /\
  writes (trace (Warn w (New o) msg))
  = [ str "timestamp=" ++ time_Now_Format w defaultTSFormat
      ++ str " level=warn message=" ++ escapeAndWriteString [] msg
      ++ str " sc=general " ++ [newline] ] /\
  writes (trace (Error w (New o) msg))
  = [ str "timestamp=" ++ time_Now_Format w defaultTSFormat
      ++ str " level=error message=" ++ escapeAndWriteString [] msg
      ++ str " sc=general " ++ [newline] ].
Proof.
  destruct severity_constants as (Hd & Hi & Hw & He & Hf).
  split; [reflexivity|].
  unfold Info, Warn, Error.
  rewrite !handleLog_emits by (try left; assumption || (cbv; congruence)).
  unfold trace. cbn [fst]. rewrite !writes_emissionEvents.
  unfold lineOf, fixedFields, timeText, fieldText, keyText.
  cbn [enableColor enableCaller tsFormat scope New fst snd app flat_map map joinSp
       valueText].
  replace (escapeAndWriteString [] (str "level")) with (str "level")
    by (vm_compute; reflexivity).
  replace (escapeAndWriteString [] (str "message")) with (str "message")
    by (vm_compute; reflexivity).
  replace (escapeAndWriteString [] scopeKey) with (str "sc")
    by (vm_compute; reflexivity).
  replace (escapeAndWriteString [] (str "general")) with (str "general")
    by (vm_compute; reflexivity).
  replace (escapeAndWriteString [] (Level_String InfoLevel)) with (str "info")
    by (vm_compute; reflexivity).
  replace (escapeAndWriteString [] (Level_String WarnLevel)) with (str "warn")
    by (vm_compute; reflexivity).
  replace (escapeAndWriteString [] (Level_String ErrorLevel)) with (str "error")
    by (vm_compute; reflexivity).
  unfold tsKey. rewrite <- !app_assoc.
  cbn [app str String.list_byte_of_string]. repeat split.
Qed.

(** The order in which the map is ranged over only permutes the tokens of
    the caller's fields: the fixed fields before them are the same, and each
    field supplied is written exactly once. *)
Theorem field_order_only_permutes_tokens (w : Runtime) (l : Logger) (msg : gostring)
    (lvl : Level) (fields1 fields2 : Fields) :
  isSeverity lvl \/ enableColor l = false ->
  level l <= lvl ->
  Permutation fields1 fields2 ->
  exists pre toks1 toks2,
    writes (trace (handleLog w l msg lvl fields1)) = [pre ++ joinSp toks1 ++ [newline]] /\
    writes (trace (handleLog w l msg lvl fields2)) = [pre ++ joinSp toks2 ++ [newline]] /\
    Permutation toks1 toks2 /\
    toks1 = map (fieldText w (enableColor l) lvl) fields1 /\
    length toks2 = length fields2.
Proof.
  intros Hs Hl Hp.
  exists (flat_map (fun t => t ++ [space]) (fixedFields w l msg lvl)),
         (map (fieldText w (enableColor l) lvl) fields1),
         (map (fieldText w (enableColor l) lvl) fields2).
  rewrite !handleLog_emits by assumption.
  unfold trace. cbn [fst]. rewrite !writes_emissionEvents.
  repeat split.
  - now apply Permutation_map.
  - apply length_map.
Qed.

Lemma field_order_only_permutes_tokens_witness :
  ((isSeverity InfoLevel \/ enableColor sampleLogger = false) /\
   level sampleLogger <= InfoLevel /\
   Permutation cleanFields (rev cleanFields)) /\
  exists pre toks1 toks2,
    writes (trace (handleLog exampleRuntime sampleLogger (str "x") InfoLevel cleanFields))
    = [pre ++ joinSp toks1 ++ [newline]] /\
    writes (trace (handleLog exampleRuntime sampleLogger (str "x") InfoLevel
                     (rev cleanFields)))
    = [pre ++ joinSp toks2 ++ [newline]] /\
    Permutation toks1 toks2 /\
    toks1 = map (fieldText exampleRuntime (enableColor sampleLogger) InfoLevel) cleanFields /\
    length toks2 = length (rev cleanFields).
Proof.
  assert (H1 : isSeverity InfoLevel \/ enableColor sampleLogger = false)
    by (right; reflexivity).
  assert (H2 : level sampleLogger <= InfoLevel) by (cbv; congruence).
  assert (H3 : Permutation cleanFields (rev cleanFields)) by apply Permutation_rev.
  split; [split; [exact H1|split; [exact H2|exact H3]]|].
  exact (field_order_only_permutes_tokens exampleRuntime sampleLogger (str "x")
           InfoLevel cleanFields (rev cleanFields) H1 H2 H3).
Defined.

(** The filter follows the order of the levels: when a call at one level is
    filtered, so is a call at any lower level, whatever the logger. *)
Theorem filter_is_monotone (w : Runtime) (l : Logger) (msg1 msg2 : gostring)
    (lo hi : Level) (fields1 fields2 : Fields) :
  lo <= hi ->
  trace (handleLog w l msg2 hi fields2) = [] ->
  handleLog w l msg1 lo fields1 = ret tt.
Proof.
  intros Hle Hhi.
  destruct (Z.lt_ge_cases hi (level l)) as [Hlt|Hge].
  - apply handleLog_filtered. lia.
  - destruct (handleLog_starts_with_pool_get w l msg2 hi fields2 Hge) as (es & o & E).
    rewrite E in Hhi. discriminate Hhi.
Qed.

Lemma filter_is_monotone_witness :
  (DebugLevel <= InfoLevel /\
   trace (handleLog exampleRuntime (SetLevel (New okWriter) WarnLevel) (str "b")
            InfoLevel []) = []) /\
  handleLog exampleRuntime (SetLevel (New okWriter) WarnLevel) (str "a") DebugLevel []
  = ret tt.
Proof.
  assert (H1 : DebugLevel <= InfoLevel) by (cbv; congruence).
  split; [split; [exact H1|reflexivity]|].
  exact (filter_is_monotone exampleRuntime (SetLevel (New okWriter) WarnLevel)
           (str "a") (str "b") DebugLevel InfoLevel [] [] H1 eq_refl).
Defined.

Lemma splitAtEquals_bare (k v : gostring) :
  ~ In equals k -> splitAtEquals (k ++ equals :: v) = Some (k, v).
Proof.
  induction k as [|b k IH]; intros Hk.
  - reflexivity.
  - cbn [app splitAtEquals].
    destruct (Byte.eqb b equals) eqn:E.
    + apply Byte.byte_dec_bl in E. subst b. exfalso. apply Hk. now left.
    + rewrite IH; [reflexivity|]. intros Hin. apply Hk. now right.
Qed.

(** A field with a key that needs no quoting and a string value reads back:
    the text before the first ['='] of the token is the key, and the rest
    reads back as the value (with undecodable bytes replaced). *)
Theorem bare_key_field_reads_back (w : Runtime) (lvl : Level) (key val : gostring) :
  needsQuoting key = false ->
  readField (fieldText w false lvl (key, VString val)) = Some (key, toValid val).
Proof.
  intros Hk. unfold fieldText, keyText, readField. cbn [fst snd valueText].
  assert (Hb : escapeAndWriteString [] key = key).
  { rewrite escapeAndWriteString_spec. fold (needsQuoting key). now rewrite Hk. }
  assert (Hn : ~ In equals key).
  { intros Hin. assert (E : needsQuoting key = true)
      by (apply needsQuote_iff; left; left; exact Hin). congruence. }
  rewrite Hb. cbn [app]. rewrite splitAtEquals_bare by exact Hn.
  now rewrite readValue_escape.
Qed.

Lemma bare_key_field_reads_back_witness :
  needsQuoting (str "user") = false /\
  readField (fieldText exampleRuntime false InfoLevel (str "user", VString (str "a=b c")))
  = Some (str "user", toValid (str "a=b c")).
Proof.
  split; [reflexivity|].
  exact (bare_key_field_reads_back exampleRuntime InfoLevel (str "user") (str "a=b c")
           eq_refl).
Defined.

(** The timestamp text is appended as the formatter returns it, without
    escaping: the line starts with the timestamp key, that text and a
    space, whatever bytes the text holds. *)
Theorem timestamp_is_written_raw (w : Runtime) (l : Logger) (msg : gostring)
    (lvl : Level) (fields : Fields) :
  enableColor l = false ->
  level l <= lvl ->
  exists rest,
    writes (trace (handleLog w l msg lvl fields))
    = [str "timestamp=" ++ time_Now_Format w (tsFormat l) ++ [space] ++ rest].
Proof.
  intros Hc Hl. rewrite handleLog_emits by (try right; assumption).
  unfold trace. cbn [fst]. rewrite writes_emissionEvents.
  unfold lineOf, fixedFields, timeText, keyText. rewrite Hc.
  cbn [app flat_map]. eexists. f_equal. unfold tsKey.
  rewrite <- !app_assoc. reflexivity.
Qed.

Lemma timestamp_is_written_raw_witness :
  (enableColor (New okWriter) = false /\ level (New okWriter) <= ErrorLevel) /\
  exists rest,
    writes (trace (handleLog exampleRuntime (New okWriter) (str "x") ErrorLevel []))
    = [str "timestamp=" ++ time_Now_Format exampleRuntime (tsFormat (New okWriter))
       ++ [space] ++ rest].
Proof.
  assert (H2 : level (New okWriter) <= ErrorLevel) by (cbv; congruence).
  split; [split; [reflexivity|exact H2]|].
  exact (timestamp_is_written_raw exampleRuntime (New okWriter) (str "x") ErrorLevel []
           eq_refl H2).
Defined.

(** When the stack walk resolves a frame, [caller] returns the file, a
    colon and the line in decimal, and the emission carries it as the
    caller field after the scope field, escaped like any string. *)
Theorem caller_field_when_resolved (w : Runtime) (l : Logger) (msg : gostring)
    (lvl : Level) (fields : Fields) (file : gostring) (line : Z) :
  isSeverity lvl \/ enableColor l = false ->
  level l <= lvl ->
  enableCaller l = true ->
  runtime_Caller w (callerSkipFrameCount l) = Some (file, line) ->
  caller w (callerSkipFrameCount l)
  = ([EvRuntimeCaller (callerSkipFrameCount l)],
     Returned (file ++ str ":" ++ Itoa line)) /\
  writes (trace (handleLog w l msg lvl fields))
  = [ flat_map (fun t => t ++ [space])
        [ timeText w (enableColor l) lvl (tsFormat l);
          fieldText w (enableColor l) lvl (str "level", VStringer (Level_String lvl));
          fieldText w (enableColor l) lvl (str "message", VString msg);
          fieldText w (enableColor l) lvl (scopeKey, VString (scope l));
          escapeAndWriteString [] (keyText (enableColor l) lvl (str "caller"))
            ++ [equals] ++ escapeAndWriteString [] (file ++ str ":" ++ Itoa line) ]
      ++ joinSp (map (fieldText w (enableColor l) lvl) fields)
      ++ [newline] ].
Proof.
  intros Hs Hl Hc Hr. split.
  - unfold caller. rewrite Hr. reflexivity.
  - rewrite handleLog_emits by assumption.
    unfold trace. cbn [fst]. rewrite writes_emissionEvents.
    unfold lineOf, fixedFields. rewrite Hc. unfold callerText. rewrite Hr.
    reflexivity.
Qed.

Lemma caller_field_when_resolved_witness :
  ((isSeverity InfoLevel \/ enableColor callerLogger = false) /\
   level callerLogger <= InfoLevel /\
   enableCaller callerLogger = true /\
   runtime_Caller exampleRuntime (callerSkipFrameCount callerLogger)
   = Some (str "/app/main.go", 42)) /\
  (caller exampleRuntime (callerSkipFrameCount callerLogger)
   = ([EvRuntimeCaller (callerSkipFrameCount callerLogger)],
      Returned (str "/app/main.go" ++ str ":" ++ Itoa 42)) /\
   writes (trace (handleLog exampleRuntime callerLogger (str "x") InfoLevel []))
   = [ flat_map (fun t => t ++ [space])
         [ timeText exampleRuntime (enableColor callerLogger) InfoLevel
             (tsFormat callerLogger);
           fieldText exampleRuntime (enableColor callerLogger) InfoLevel
             (str "level", VStringer (Level_String InfoLevel));
           fieldText exampleRuntime (enableColor callerLogger) InfoLevel
             (str "message", VString (str "x"));
           fieldText exampleRuntime (enableColor callerLogger) InfoLevel
             (scopeKey, VString (scope callerLogger));
           escapeAndWriteString []
             (keyText (enableColor callerLogger) InfoLevel (str "caller"))
             ++ [equals]
             ++ escapeAndWriteString [] (str "/app/main.go" ++ str ":" ++ Itoa 42) ]
       ++ joinSp (map (fieldText exampleRuntime (enableColor callerLogger) InfoLevel) [])
       ++ [newline] ]).
Proof.
  assert (H1 : isSeverity InfoLevel \/ enableColor callerLogger = false)
    by (right; reflexivity).
  assert (H2 : level callerLogger <= InfoLevel) by (cbv; congruence).
  split; [split; [exact H1|split; [exact H2|split; reflexivity]]|].
  exact (caller_field_when_resolved exampleRuntime callerLogger (str "x") InfoLevel []
           (str "/app/main.go") 42 H1 H2 eq_refl eq_refl).
Defined.
